(** * QuickClinic: prescription and doctor-profile controllers, authentication middleware

    A shallow embedding of [server/Controllers/prescriptionController.js]
    (prescription controller and doctor-profile controller) and of the
    authentication middleware, with the statements of the specification
    proved or refuted on it.

    JavaScript values are a tagged union, documents of the store are plain
    objects (ordered association lists), the document store is one list of
    documents per model, and a handler is a state-passing computation over
    the store which ends normally, by an early [return res.status(..).json(..)],
    or by a thrown exception caught by the handler's [catch] block. *)

From Stdlib Require Import String Ascii List ZArith Bool Lia.
From Stdlib Require Import Permutation Sorting.Sorted DecimalString DecimalNat FinFun.
Import ListNotations.
Open Scope string_scope.

(** ** JavaScript values *)

(** Numbers are taken integer-valued: the handlers only observe whether a
    number is zero and whether two numbers are equal. *)
#[local] Set Warnings "-register-all".
Inductive JsVal : Type :=
| VUndef
| VNull
| VBool (b : bool)
| VNum (n : Z)
| VStr (s : string)
| VArr (items : list JsVal)
| VObj (fields : list (string * JsVal)).

#[local] Set Warnings "+register-all".

Definition Obj := list (string * JsVal).

(** [!!v] *)
Definition truthy (v : JsVal) : bool :=
  match v with
  | VUndef | VNull => false
  | VBool b => b
  | VNum n => negb (n =? 0)%Z
  | VStr s => negb (s =? "")
  | VArr _ | VObj _ => true
  end.

(** [o[k]] on a plain object; a key that is not there reads [undefined]. *)
Fixpoint lookup (k : string) (o : Obj) : JsVal :=
  match o with
  | [] => VUndef
  | (k', v) :: o' => if k' =? k then v else lookup k o'
  end.

Fixpoint has_key (k : string) (o : Obj) : bool :=
  match o with
  | [] => false
  | (k', _) :: o' => (k' =? k) || has_key k o'
  end.

(** [o[k] = v]: the key keeps its place when present and is appended otherwise. *)
Fixpoint obj_set (k : string) (v : JsVal) (o : Obj) : Obj :=
  match o with
  | [] => [(k, v)]
  | (k', v') :: o' => if k' =? k then (k, v) :: o' else (k', v') :: obj_set k v o'
  end.

Definition obj_remove (k : string) (o : Obj) : Obj :=
  filter (fun kv => negb (fst kv =? k)) o.

(** [{ ...a, ...b }] *)
Definition obj_merge (a b : Obj) : Obj :=
  fold_left (fun acc kv => obj_set (fst kv) (snd kv) acc) b a.

(** A model constructor drops the members whose value is [undefined]. *)
Definition is_undef (v : JsVal) : bool :=
  match v with VUndef => true | _ => false end.

Definition defined_fields (o : Obj) : Obj :=
  filter (fun kv => negb (is_undef (snd kv))) o.

(** [v.k] for a key other than an array index.  [None] is the [TypeError]
    of reading a property of [undefined] or [null]. *)
Definition prop (v : JsVal) (k : string) : option JsVal :=
  match v with
  | VUndef | VNull => None
  | VObj o => Some (lookup k o)
  | VArr l => Some (if k =? "length" then VNum (Z.of_nat (List.length l)) else VUndef)
  | VStr s => Some (if k =? "length" then VNum (Z.of_nat (String.length s)) else VUndef)
  | VBool _ | VNum _ => Some VUndef
  end.

(** [v === 0] *)
Definition is_zero (v : JsVal) : bool :=
  match v with VNum 0 => true | _ => false end.

(** Structural equality of values, the way a query compares a stored
    field with the value asked for. *)
Fixpoint jsval_eqb (a b : JsVal) {struct a} : bool :=
  match a, b with
  | VUndef, VUndef => true
  | VNull, VNull => true
  | VBool x, VBool y => Bool.eqb x y
  | VNum x, VNum y => (x =? y)%Z
  | VStr x, VStr y => (x =? y)
  | VArr xs, VArr ys =>
      (fix items (xs ys : list JsVal) {struct xs} : bool :=
         match xs, ys with
         | [], [] => true
         | x :: xs', y :: ys' => jsval_eqb x y && items xs' ys'
         | _, _ => false
         end) xs ys
  | VObj xs, VObj ys =>
      (fix members (xs ys : list (string * JsVal)) {struct xs} : bool :=
         match xs, ys with
         | [], [] => true
         | (k, x) :: xs', (k', y) :: ys' => (k =? k') && jsval_eqb x y && members xs' ys'
         | _, _ => false
         end) xs ys
  | _, _ => false
  end.

(** [Object.keys(v).length] for a value that is neither [undefined] nor [null]. *)
Definition keys_length (v : JsVal) : nat :=
  match v with
  | VObj o => List.length o
  | VArr l => List.length l
  | VStr s => String.length s
  | _ => 0
  end.

(** Induction on values that goes through the items of an array and the
    members of an object. *)
Section JsVal_induction.

Variable P : JsVal -> Prop.
Hypothesis P_undef : P VUndef.
Hypothesis P_null : P VNull.
Hypothesis P_bool : forall b, P (VBool b).
Hypothesis P_num : forall n, P (VNum n).
Hypothesis P_str : forall s, P (VStr s).
Hypothesis P_arr : forall l, Forall P l -> P (VArr l).
Hypothesis P_obj : forall o, Forall (fun kv => P (snd kv)) o -> P (VObj o).

Fixpoint JsVal_deep_ind (v : JsVal) : P v :=
  match v with
  | VUndef => P_undef
  | VNull => P_null
  | VBool b => P_bool b
  | VNum n => P_num n
  | VStr s => P_str s
  | VArr l =>
      P_arr l ((fix items (l : list JsVal) : Forall P l :=
                  match l with
                  | [] => Forall_nil _
                  | x :: l' => Forall_cons x (JsVal_deep_ind x) (items l')
                  end) l)
  | VObj o =>
      P_obj o ((fix members (o : list (string * JsVal)) : Forall (fun kv => P (snd kv)) o :=
                  match o with
                  | [] => Forall_nil _
                  | kv :: o' => Forall_cons kv (JsVal_deep_ind (snd kv)) (members o')
                  end) o)
  end.

End JsVal_induction.

Definition decimal (n : nat) : string := NilEmpty.string_of_uint (Nat.to_uint n).

(** [s.split(' ')] *)
Fixpoint split_space (s : string) : list string :=
  match s with
  | EmptyString => [EmptyString]
  | String c s' =>
      if Ascii.eqb c " "%char then EmptyString :: split_space s'
      else match split_space s' with
           | [] => [String c EmptyString]
           | w :: ws => String c w :: ws
           end
  end.

(** ** The document store *)

(** The models the handlers import.  [Clinic] is the model the Doctor
    schema's [clinicId] path is populated from. *)
Inductive Model := User | Patient | Admin | Doctor | Appointment | Prescription | Clinic.

Definition Model_eqb (a b : Model) : bool :=
  match a, b with
  | User, User | Patient, Patient | Admin, Admin | Doctor, Doctor
  | Appointment, Appointment | Prescription, Prescription | Clinic, Clinic => true
  | _, _ => false
  end.

Definition Db := Model -> list Obj.

Definition set_collection (db : Db) (m : Model) (docs : list Obj) : Db :=
  fun m' => if Model_eqb m m' then docs else db m'.

(** A document matches a query when every field of the query is equal to
    the document's. *)
Definition matches (q d : Obj) : bool :=
  forallb (fun kv => jsval_eqb (lookup (fst kv) d) (snd kv)) q.

Definition find_docs (db : Db) (m : Model) (q : Obj) : list Obj :=
  filter (matches q) (db m).

Definition find_first (db : Db) (m : Model) (q : Obj) : option Obj :=
  hd_error (find_docs db m q).

(** [doc.save()] of a new document. *)
Definition insert_doc (db : Db) (m : Model) (d : Obj) : Db :=
  set_collection db m (db m ++ [d]).

(** [doc.save()] of a document that was read from the store: the stored
    document with the same [_id] is replaced. *)
Definition replace_doc (db : Db) (m : Model) (d : Obj) : Db :=
  set_collection db m
    (map (fun d' => if jsval_eqb (lookup "_id" d') (lookup "_id" d) then d else d') (db m)).

(** [.select('-a -b')] *)
Definition select_out (ks : list string) (d : Obj) : Obj :=
  fold_left (fun acc k => obj_remove k acc) ks d.

(** The projection [populate(path, 'a b')] keeps of the referenced document:
    the selected fields that it has, and its [_id]. *)
Definition select_in (ks : list string) (d : Obj) : Obj :=
  filter (fun kv => (fst kv =? "_id") || existsb (String.eqb (fst kv)) ks) d.

(** ** Responses, requests, exceptions *)

Record Response := { status : nat; body : JsVal }.

Record JsError := {
  err_name : string;
  err_message : string;
  err_errors : list (string * string)   (* [error.errors]: path and message *)
}.

Definition TypeError : JsError :=
  {| err_name := "TypeError"; err_message := "TypeError"; err_errors := [] |}.

(** A request as a controller sees it.  The controllers are mounted behind
    [authenticate], the only writer of [req.user], so [req_user] is the
    identity object built there. *)
Record Request := {
  req_headers : list (string * string);
  req_params : list (string * string);
  req_query : list (string * string);
  req_body : JsVal;
  req_file : option string;             (* [req.file.path] *)
  req_user : Obj
}.

Fixpoint assoc (k : string) (l : list (string * string)) : JsVal :=
  match l with
  | [] => VUndef
  | (k', v) :: l' => if k' =? k then VStr v else assoc k l'
  end.

(** The calls made to the store. *)
Inductive DbCall :=
| CallFindOne (m : Model) (q : Obj)
| CallFind (m : Model) (q : Obj)
| CallFindById (m : Model) (id : JsVal)
| CallFindOneAndUpdate (m : Model) (q : Obj) (updates : JsVal)
| CallSave (m : Model) (d : Obj).

(** The collaborators that are not part of the controllers: the id
    generator and id syntax of the store's client, the failures of the store
    (a schema validation error of [save], a cast error, a lost connection),
    the [ref] of the schema paths, the token service, the upload service,
    the [Date] constructor and the process environment. *)
Record Env := {
  ObjectId_isValid : JsVal -> bool;
  new_ObjectId : Db -> JsVal;
  db_fault : Db -> DbCall -> option JsError;
  schema_ref : Model -> string -> Model;
  verifyAccessToken : JsVal -> JsError + JsVal;
  uploadToCloudinary : string -> JsError + JsVal;
  new_Date : JsVal -> JsVal;
  NODE_ENV : string
}.

(** ** Handler computations *)

Inductive Outcome (A : Type) : Type :=
| Next (a : A)               (* the statement completed *)
| Return (r : Response)      (* [return res.status(s).json(b)], or the last [res.json] *)
| Throw (e : JsError).

Arguments Next {A} a.
Arguments Return {A} r.
Arguments Throw {A} e.

Definition Handler (A : Type) : Type := Db -> Outcome A * Db.

Definition ret {A} (a : A) : Handler A := fun db => (Next a, db).

Definition bind {A B} (c : Handler A) (k : A -> Handler B) : Handler B :=
  fun db =>
    match c db with
    | (Next a, db') => k a db'
    | (Return r, db') => (Return r, db')
    | (Throw e, db') => (Throw e, db')
    end.

Notation "x <- c ;; k" := (bind c (fun x => k))
  (at level 61, c at next level, right associativity).
Notation "c ;;; k" := (bind c (fun _ => k))
  (at level 61, right associativity).

Definition respond {A} (s : nat) (b : JsVal) : Handler A :=
  fun db => (Return {| status := s; body := b |}, db).

Definition throw {A} (e : JsError) : Handler A := fun db => (Throw e, db).

(** A value that may be the [TypeError] of a property read. *)
Definition must {A} (o : option A) : Handler A :=
  match o with Some a => ret a | None => throw TypeError end.

(** [if (c) { return res.status(s).json(b) }] *)
Definition reject_if (c : bool) (s : nat) (b : JsVal) : Handler unit :=
  if c then respond s b else ret tt.

(** [try { body } catch (error) { handler }] around a whole controller. *)
Definition try_catch (body : Handler Empty_set) (handler : JsError -> Response)
  : Db -> Response * Db :=
  fun db =>
    match body db with
    | (Next e, _) => match e with end
    | (Return r, db') => (r, db')
    | (Throw e, db') => (handler e, db')
    end.

Definition str_or_undef (c : bool) (s : string) : JsVal :=
  if c then VStr s else VUndef.

(** ** The prescription controller *)

Section Controllers.

Variable E : Env.

(** A call to the store: the call fails with the exception the store
    raises for it, or runs. *)
Definition db_call {A} (c : DbCall) (run : Db -> A * Db) : Handler A :=
  fun db =>
    match db_fault E db c with
    | Some e => (Throw e, db)
    | None => let (a, db') := run db in (Next a, db')
    end.

Definition findOne (m : Model) (q : Obj) : Handler (option Obj) :=
  db_call (CallFindOne m q) (fun db => (find_first db m q, db)).

Definition save_new (m : Model) (d : Obj) : Handler unit :=
  db_call (CallSave m d) (fun db => (tt, insert_doc db m d)).

Definition save_existing (m : Model) (d : Obj) : Handler unit :=
  db_call (CallSave m d) (fun db => (tt, replace_doc db m d)).

(** Modelled from the spec: the schemas (models/Appointment/Prescription.js,
    models/Users/Doctor.js) are missing from the sources.  [new Model(fields)]
    is a document with a fresh [_id] and the fields the controller passes
    that are defined, stored as given (diagnosis, medications, tests, notes,
    follow-up date, the linked appointment, doctor and patient); what a
    schema refuses is the [ValidationError] of [db_fault] at [save]. *)
Definition new_doc (fields : Obj) : Handler Obj :=
  fun db => (Next (obj_set "_id" (new_ObjectId E db) (defined_fields fields)), db).

(** [process.env.NODE_ENV === 'development' ? error.message : undefined] *)
Definition dev_message (e : JsError) : JsVal :=
  if NODE_ENV E =? "development" then VStr (err_message e) else VUndef.

(** The [catch] block shared by the writing controllers. *)
Definition catch_write (failed : string) (e : JsError) : Response :=
  if err_name e =? "ValidationError" then
    {| status := 400;
       body := VObj [("message", VStr "Validation error");
                     ("errors", VArr (map (fun pm => VStr (snd pm)) (err_errors e)))] |}
  else
    {| status := 500;
       body := VObj [("message", VStr failed); ("error", dev_message e)] |}.

(** The [catch] block shared by the reading controllers. *)
Definition catch_read (failed : string) (e : JsError) : Response :=
  {| status := 500;
     body := VObj [("message", VStr failed); ("error", dev_message e)] |}.

(** [!med.name || !med.dosage || !med.frequency || !med.duration] *)
Definition med_incomplete (med : JsVal) : option bool :=
  match prop med "name", prop med "dosage", prop med "frequency", prop med "duration" with
  | Some n, Some d, Some f, Some u =>
      Some (negb (truthy n) || negb (truthy d) || negb (truthy f) || negb (truthy u))
  | _, _, _, _ => None
  end.

Definition med_error (index : nat) : string :=
  "Medication " ++ decimal (index + 1) ++ " is missing required fields".

(** The [forEach] over the medications, from position [index] on, pushing
    onto [medicationErrors]. *)
Fixpoint medications_forEach (index : nat) (meds : list JsVal) (medicationErrors : list string)
  : option (list string) :=
  match meds with
  | [] => Some medicationErrors
  | med :: rest =>
      match med_incomplete med with
      | None => None
      | Some true => medications_forEach (S index) rest (medicationErrors ++ [med_error index])
      | Some false => medications_forEach (S index) rest medicationErrors
      end
  end.

(** [medications.forEach(...)]: only an array has the method. *)
Definition validate_medications (medications : JsVal) : option (list string) :=
  match medications with
  | VArr meds => medications_forEach 0 meds []
  | _ => None
  end.

(** [!medications || medications.length === 0] *)
Definition no_medications (medications : JsVal) : bool :=
  negb (truthy medications) ||
  match prop medications "length" with Some n => is_zero n | None => false end.

Definition createPrescription_body (req : Request) : Handler Empty_set :=
  let userId := lookup "userId" (req_user req) in
  let appointmentId := assoc "appointmentId" (req_params req) in
  diagnosis <- must (prop (req_body req) "diagnosis") ;;
  medications <- must (prop (req_body req) "medications") ;;
  tests <- must (prop (req_body req) "tests") ;;
  notes <- must (prop (req_body req) "notes") ;;
  followUpDate <- must (prop (req_body req) "followUpDate") ;;
  reject_if (negb (truthy appointmentId) || no_medications medications) 400
    (VObj [("message", VStr "Appointment ID and medications are required");
           ("errors", VObj [
              ("appointmentId",
                 str_or_undef (negb (truthy appointmentId)) "Appointment ID is required");
              ("medications",
                 str_or_undef (no_medications medications) "At least one medication is required")])]) ;;;
  found <- findOne Appointment [("_id", appointmentId); ("doctorId", userId)] ;;
  match found with
  | None => respond 404 (VObj [("message", VStr "Appointment not found or not authorized")])
  | Some appointment =>
      medicationErrors <- must (validate_medications medications) ;;
      reject_if (0 <? List.length medicationErrors)%nat 400
        (VObj [("message", VStr "Medication validation failed");
               ("errors", VArr (map VStr medicationErrors))]) ;;;
      prescription <- new_doc [
          ("appointmentId", appointmentId);
          ("doctorId", userId);
          ("patientId", lookup "patientId" appointment);
          ("diagnosis", diagnosis);
          ("medications", medications);
          ("tests", tests);
          ("notes", notes);
          ("followUpDate", if truthy followUpDate then new_Date E followUpDate else VUndef)] ;;
      save_new Prescription prescription ;;;
      save_existing Appointment (obj_set "prescriptionId" (lookup "_id" prescription) appointment) ;;;
      respond 201 (VObj [("message", VStr "Prescription created successfully");
                         ("prescription", VObj prescription)])
  end.

Definition createPrescription (req : Request) : Db -> Response * Db :=
  try_catch (createPrescription_body req) (catch_write "Failed to create prescription").

(** *** Queries that list documents *)

(** Modelled from the spec: the Prescription schema, which declares the
    [date] path, is missing from the sources.  The key of
    [.sort({ date: -1 })] is the stored date, a number (milliseconds); a
    document without one sorts below every dated one, so it comes last in
    descending order. *)
Definition date_key (d : Obj) : option Z :=
  match lookup "date" d with VNum n => Some n | _ => None end.

Definition key_leb (a b : option Z) : bool :=
  match a, b with
  | None, _ => true
  | Some _, None => false
  | Some x, Some y => (x <=? y)%Z
  end.

Fixpoint insert_desc (d : Obj) (l : list Obj) : list Obj :=
  match l with
  | [] => [d]
  | d' :: l' =>
      if key_leb (date_key d') (date_key d) then d :: d' :: l'
      else d' :: insert_desc d l'
  end.

Definition sort_date_desc (l : list Obj) : list Obj :=
  fold_right insert_desc [] l.

(** [.populate(path, select)] on one document: a path that is set is
    replaced by the selected fields of the document it references, or by
    [null] when there is none. *)
Definition populate (db : Db) (m : Model) (path : string) (select : list string) (d : Obj) : Obj :=
  match lookup path d with
  | VUndef | VNull => d
  | id =>
      match find_first db (schema_ref E m path) [("_id", id)] with
      | Some r => obj_set path (VObj (select_in select r)) d
      | None => obj_set path VNull d
      end
  end.

Definition populate_all (db : Db) (m : Model) (paths : list (string * list string)) (d : Obj) : Obj :=
  fold_left (fun acc ps => populate db m (fst ps) (snd ps) acc) paths d.

(** [Model.find(q).select(..).populate(..).sort({ date: -1 }).lean()] *)
Definition find (m : Model) (q : Obj) (project : Obj -> Obj)
    (paths : list (string * list string)) (sorted : bool) : Handler (list Obj) :=
  db_call (CallFind m q) (fun db =>
    let docs := find_docs db m q in
    let docs := if sorted then sort_date_desc docs else docs in
    (map (fun d => populate_all db m paths (project d)) docs, db)).

(** [Model.findById(id).select(..).populate(..)] *)
Definition findById (m : Model) (id : JsVal) (project : Obj -> Obj)
    (paths : list (string * list string)) : Handler (option Obj) :=
  db_call (CallFindById m id) (fun db =>
    (option_map (fun d => populate_all db m paths (project d)) (find_first db m [("_id", id)]), db)).

Definition listing (docs : list Obj) (name : string) : JsVal :=
  VObj [("count", VNum (Z.of_nat (List.length docs))); (name, VArr (map VObj docs))].

Definition getPatientPrescriptions_body (req : Request) : Handler Empty_set :=
  let userId := lookup "userId" (req_user req) in
  prescriptions <- find Prescription [("patientId", userId)] (fun d => d)
      [("doctorId", ["name"; "specialization"]); ("appointmentId", ["date"])] true ;;
  respond 200 (listing prescriptions "prescriptions").

Definition getPatientPrescriptions (req : Request) : Db -> Response * Db :=
  try_catch (getPatientPrescriptions_body req) (catch_read "Failed to fetch prescriptions").

Definition doctor_query (userId patientId : JsVal) : Obj :=
  let query := [("doctorId", userId)] in
  if truthy patientId then obj_set "patientId" patientId query else query.

Definition getDoctorPrescriptions_body (req : Request) : Handler Empty_set :=
  let userId := lookup "userId" (req_user req) in
  let patientId := assoc "patientId" (req_query req) in
  prescriptions <- find Prescription (doctor_query userId patientId) (fun d => d)
      [("patientId", ["name"]); ("appointmentId", ["date"])] true ;;
  respond 200 (listing prescriptions "prescriptions").

Definition getDoctorPrescriptions (req : Request) : Db -> Response * Db :=
  try_catch (getDoctorPrescriptions_body req) (catch_read "Failed to fetch prescriptions").

Definition getPrescription_body (req : Request) : Handler Empty_set :=
  let prescriptionId := assoc "prescriptionId" (req_params req) in
  found <- findById Prescription prescriptionId (fun d => d)
      [("doctorId", ["name"; "specialization"; "licenseNumber"]);
       ("patientId", ["name"; "dateOfBirth"; "gender"]);
       ("appointmentId", ["date"; "reason"])] ;;
  match found with
  | None => respond 404 (VObj [("message", VStr "Prescription not found")])
  | Some prescription => respond 200 (VObj prescription)
  end.

Definition getPrescription (req : Request) : Db -> Response * Db :=
  try_catch (getPrescription_body req) (catch_read "Failed to fetch prescription").

(** ** The doctor-profile controller *)

(** [if (req.file) { try { upload; data.profilePicture = result.url }
    catch { return 500 } }].  The assignment needs an object: a multipart
    body, the only one that carries a file, is one. *)
Definition upload_picture (req : Request) (data : JsVal) : Handler JsVal :=
  match req_file req with
  | None => ret data
  | Some path =>
      let failed := VObj [("message", VStr "Failed to upload profile picture")] in
      match uploadToCloudinary E path with
      | inl _ => respond 500 failed
      | inr result =>
          match prop result "url", data with
          | Some url, VObj o => ret (VObj (obj_set "profilePicture" url o))
          | _, _ => respond 500 failed
          end
      end
  end.

(** The members [...v] spreads into an object literal. *)
Definition spread (v : JsVal) : Obj :=
  match v with VObj o => o | _ => [] end.

Definition createDoctorProfile_body (req : Request) : Handler Empty_set :=
  let userId := lookup "userId" (req_user req) in
  let doctorData := req_body req in
  reject_if (negb (ObjectId_isValid E userId)) 400
    (VObj [("message", VStr "Invalid user ID format")]) ;;;
  existingProfile <- findOne Doctor [("userId", userId)] ;;
  match existingProfile with
  | Some _ => respond 409 (VObj [("message", VStr "Doctor profile already exists")])
  | None =>
      specialization <- must (prop doctorData "specialization") ;;
      qualifications <- must (prop doctorData "qualifications") ;;
      reject_if (negb (truthy specialization) || negb (truthy qualifications)) 400
        (VObj [("message", VStr "Specialization and qualifications are required");
               ("errors", VObj [
                  ("specialization",
                     str_or_undef (negb (truthy specialization)) "Specialization is required");
                  ("qualifications",
                     str_or_undef (negb (truthy qualifications)) "Qualifications are required")])]) ;;;
      doctorData <- upload_picture req doctorData ;;
      doctor <- new_doc (obj_merge [("userId", userId)] (spread doctorData)) ;;
      save_new Doctor doctor ;;;
      respond 201 (VObj [("message", VStr "Doctor profile created successfully");
                         ("doctor", VObj doctor)])
  end.

Definition createDoctorProfile (req : Request) : Db -> Response * Db :=
  try_catch (createDoctorProfile_body req) (catch_write "Failed to create doctor profile").

(** [Doctor.findOneAndUpdate(q, updates, { new: true, runValidators: true })]:
    the first match with the submitted fields merged in, written back. *)
Definition findOneAndUpdate (m : Model) (q : Obj) (updates : JsVal) : Handler (option Obj) :=
  db_call (CallFindOneAndUpdate m q updates) (fun db =>
    match find_first db m q with
    | None => (None, db)
    | Some d => let d' := obj_merge d (spread updates) in (Some d', replace_doc db m d')
    end).

Definition updateDoctorProfile_body (req : Request) : Handler Empty_set :=
  let userId := lookup "userId" (req_user req) in
  let updates := req_body req in
  reject_if (negb (truthy updates) ||
             ((keys_length updates =? 0)%nat &&
              match req_file req with None => true | Some _ => false end)) 400
    (VObj [("message", VStr "No updates provided")]) ;;;
  updates <- upload_picture req updates ;;
  found <- findOneAndUpdate Doctor [("userId", userId)] updates ;;
  match found with
  | None => respond 404 (VObj [("message", VStr "Doctor profile not found")])
  | Some doctor =>
      respond 200 (VObj [("message", VStr "Doctor profile updated successfully");
                         ("doctor", VObj (select_out ["__v"] doctor))])
  end.

Definition updateDoctorProfile (req : Request) : Db -> Response * Db :=
  try_catch (updateDoctorProfile_body req) (catch_write "Failed to update doctor profile").

Definition getDoctorsByClinic_body (req : Request) : Handler Empty_set :=
  let clinicId := assoc "clinicId" (req_params req) in
  reject_if (negb (ObjectId_isValid E clinicId)) 400
    (VObj [("message", VStr "Invalid clinic ID format")]) ;;;
  doctors <- find Doctor [("clinicId", clinicId)] (select_out ["appointments"; "ratings"; "__v"])
      [("clinicId", ["name"; "location"])] false ;;
  reject_if (List.length doctors =? 0)%nat 404
    (VObj [("message", VStr "No doctors found for this clinic");
           ("suggestions", VStr "Check if the clinic ID is correct")]) ;;;
  respond 200 (listing doctors "doctors").

Definition getDoctorsByClinic (req : Request) : Db -> Response * Db :=
  try_catch (getDoctorsByClinic_body req) (catch_read "Failed to fetch doctors").

(** ** The authentication middleware *)

(** [authHeader?.split(' ')[1]] *)
Definition token_of (authHeader : JsVal) : JsVal :=
  match authHeader with
  | VStr h => match nth_error (split_space h) 1 with Some t => VStr t | None => VUndef end
  | _ => VUndef
  end.

Definition role_is (role : JsVal) (name : string) : bool :=
  match role with VStr r => r =? name | _ => false end.

(** The middleware answers itself, or calls [next()] on the request it has
    written [req.user] on. *)
Inductive AuthResult :=
| Rejected (r : Response)
| Passed (req : Request).

Definition set_user (req : Request) (u : Obj) : Request :=
  {| req_headers := req_headers req; req_params := req_params req;
     req_query := req_query req; req_body := req_body req;
     req_file := req_file req; req_user := u |}.

Definition authenticate_body (req : Request) : Handler Request :=
  let authHeader := assoc "authorization" (req_headers req) in
  let token := token_of authHeader in
  reject_if (negb (truthy token)) 401 (VObj [("message", VStr "Authentication required")]) ;;;
  decoded <- match verifyAccessToken E token with
             | inl error => throw error
             | inr decoded => ret decoded
             end ;;
  decodedUserId <- must (prop decoded "userId") ;;
  user <- findById User decodedUserId (select_out ["password"; "refreshToken"]) [] ;;
  match user with
  | None => respond 404 (VObj [("message", VStr "User not found")])
  | Some user =>
      let role := lookup "role" user in
      let byUser := [("userId", lookup "_id" user)] in
      profile <- (if role_is role "admin" then findOne Admin byUser
                  else if role_is role "doctor" then findOne Doctor byUser
                  else if role_is role "patient" then findOne Patient byUser
                  else ret None) ;;
      match profile with
      | None => respond 404 (VObj [("message", VStr "Profile not found")])
      | Some profile =>
          ret (set_user req
                 (obj_set "role" role
                    (obj_set "profileId" (lookup "_id" profile)
                       (obj_set "userId" (lookup "_id" user) user))))
      end
  end.

Definition authenticate (req : Request) : Db -> AuthResult * Db :=
  fun db =>
    match authenticate_body req db with
    | (Next req', db') => (Passed req', db')
    | (Return r, db') => (Rejected r, db')
    | (Throw _, db') =>
        (Rejected {| status := 403; body := VObj [("message", VStr "Invalid or expired token")] |}, db')
    end.

(** [authorize(...roles)] *)
Definition authorize (roles : list string) (req : Request) : AuthResult :=
  if existsb (role_is (lookup "role" (req_user req))) roles then Passed req
  else Rejected {| status := 403; body := VObj [("message", VStr "Unauthorized access")] |}.

End Controllers.

(** ** Reading the doctor's own profile *)

(** The two further calls [getDoctorProfile] makes to the store. *)
Inductive ProfileCall :=
| CallExists (m : Model) (q : Obj)
| CallFindOnePopulated (m : Model) (q : Obj) (paths : list string).

Section DoctorProfileRead.

Variable E : Env.

(** The failures of the store on the calls of [ProfileCall]. *)
Variable profile_fault : Db -> ProfileCall -> option JsError.

Definition profile_call {A} (c : ProfileCall) (run : Db -> A * Db) : Handler A :=
  fun db =>
    match profile_fault db c with
    | Some e => (Throw e, db)
    | None => let (a, db') := run db in (Next a, db')
    end.

(** [Doctor.exists(q)]: the [_id] of a match, or [null]. *)
Definition exists_doc (m : Model) (q : Obj) : Handler (option Obj) :=
  profile_call (CallExists m q) (fun db => (option_map (select_in []) (find_first db m q), db)).

(** [v.length > 0], the length being that of an array or of a string. *)
Definition length_positive (v : JsVal) : bool :=
  match prop v "length" with
  | Some (VNum n) => (0 <? n)%Z
  | _ => false
  end.

(** Modelled from the spec: the Doctor schema, which declares [appointments]
    as a list of references, is missing from the sources.
    [populate({ path: 'appointments', select: '-__v', populate: { path:
    'patientId', select: 'name profilePicture' } })]: every reference that
    resolves is replaced by the appointment without its [__v] and with its
    patient populated; one that does not resolve is dropped. *)
Definition populate_appointments (db : Db) (d : Obj) : Obj :=
  match lookup "appointments" d with
  | VArr ids =>
      let target := schema_ref E Doctor "appointments" in
      obj_set "appointments"
        (VArr (flat_map
                 (fun id =>
                    match find_first db target [("_id", id)] with
                    | Some a =>
                        [VObj (populate E db target "patientId" ["name"; "profilePicture"]
                                 (select_out ["__v"] a))]
                    | None => []
                    end) ids)) d
  | _ => d
  end.

(** [Doctor.findOne(q).populate(populateOptions).lean()], the options being
    the ones pushed: the clinic, then the appointments. *)
Definition findOne_populated (q : Obj) (clinic appointments : bool) : Handler (option Obj) :=
  profile_call
    (CallFindOnePopulated Doctor q
       ((if clinic then ["clinicId"] else []) ++ (if appointments then ["appointments"] else [])))
    (fun db =>
       (option_map
          (fun d =>
             let d := if clinic
                      then populate E db Doctor "clinicId" ["name"; "address"; "contactInfo"] d
                      else d in
             if appointments then populate_appointments db d else d)
          (find_first db Doctor q), db)).

Definition getDoctorProfile_body (req : Request) : Handler Empty_set :=
  let userId := lookup "userId" (req_user req) in
  doctorExists <- exists_doc Doctor [("userId", userId)] ;;
  match doctorExists with
  | None => respond 404 (VObj [("message", VStr "Doctor profile not found")])
  | Some _ =>
      found <- findOne E Doctor [("userId", userId)] ;;
      match found with
      | None => throw TypeError                         (* [doctor.clinicId] of [null] *)
      | Some doctor =>
          let clinic := truthy (lookup "clinicId" doctor) in
          let appointments :=
            truthy (lookup "appointments" doctor) &&
            length_positive (lookup "appointments" doctor) in
          populatedDoctor <- (if clinic || appointments
                              then findOne_populated [("userId", userId)] clinic appointments
                              else ret (Some doctor)) ;;
          match populatedDoctor with
          | None => throw TypeError                     (* [delete null.__v] *)
          | Some populatedDoctor => respond 200 (VObj (obj_remove "__v" populatedDoctor))
          end
      end
  end.

Definition getDoctorProfile (req : Request) : Db -> Response * Db :=
  try_catch (getDoctorProfile_body req) (catch_read E "Failed to fetch doctor profile").

End DoctorProfileRead.

(** ** A sample deployment

    A store, collaborators and requests on which the statements below are
    evaluated. *)

Module Sample.

Definition oid (suffix : string) : JsVal := VStr ("64b0000000000000000000" ++ suffix).

Definition env : Env := {|
  ObjectId_isValid := fun v =>
    match v with VStr s => (String.length s =? 24)%nat | _ => false end;
  new_ObjectId := fun db => oid ("n" ++ decimal (List.length (db Prescription) + List.length (db Doctor)));
  db_fault := fun _ _ => None;
  schema_ref := fun _ path =>
    if path =? "doctorId" then Doctor
    else if path =? "patientId" then Patient
    else if path =? "appointmentId" then Appointment
    else Clinic;
  verifyAccessToken := fun token =>
    if jsval_eqb token (VStr "token-of-u1") then inr (VObj [("userId", oid "u1")])
    else if jsval_eqb token (VStr "token-of-u3") then inr (VObj [("userId", oid "u3")])
    else if jsval_eqb token (VStr "token-of-u9") then inr (VObj [("userId", oid "u9")])
    else inl {| err_name := "TokenExpiredError"; err_message := "jwt expired"; err_errors := [] |};
  uploadToCloudinary := fun path => inr (VObj [("url", VStr ("https://cdn.example/" ++ path))]);
  new_Date := fun v => v;
  NODE_ENV := "production"
|}.

Definition user1 : Obj :=
  [("_id", oid "u1"); ("name", VStr "Asha"); ("role", VStr "doctor");
   ("password", VStr "hash"); ("refreshToken", VStr "refresh")].
Definition user2 : Obj :=
  [("_id", oid "u2"); ("name", VStr "Ben"); ("role", VStr "patient");
   ("password", VStr "hash"); ("refreshToken", VStr "refresh")].
Definition user3 : Obj :=
  [("_id", oid "u3"); ("name", VStr "Chen"); ("role", VStr "doctor");
   ("password", VStr "hash"); ("refreshToken", VStr "refresh")].

Definition doctor1 : Obj :=
  [("_id", oid "d1"); ("userId", oid "u1"); ("name", VStr "Asha");
   ("specialization", VStr "Cardiology"); ("licenseNumber", VStr "LIC-0001");
   ("clinicId", oid "c1"); ("ratings", VArr []); ("__v", VNum 0)].
Definition patient1 : Obj :=
  [("_id", oid "p1"); ("userId", oid "u2"); ("name", VStr "Ben");
   ("dateOfBirth", VNum 631152000000); ("gender", VStr "male")].
Definition clinic1 : Obj :=
  [("_id", oid "c1"); ("name", VStr "Central"); ("location", VStr "Pune")].

Definition appointment1 : Obj :=
  [("_id", oid "a1"); ("doctorId", oid "u1"); ("patientId", oid "u2");
   ("date", VNum 1700000000000); ("reason", VStr "checkup")].
Definition appointment2 : Obj :=
  [("_id", oid "a2"); ("doctorId", oid "u3"); ("patientId", oid "u2");
   ("date", VNum 1700000500000); ("reason", VStr "fever")].

Definition rx (id doctorId patientId : string) (date : Z) : Obj :=
  [("_id", oid id); ("doctorId", oid doctorId); ("patientId", oid patientId);
   ("appointmentId", oid "a1"); ("date", VNum date)].

Definition store : Db := fun m =>
  match m with
  | User => [user1; user2; user3]
  | Doctor => [doctor1]
  | Patient => [patient1]
  | Admin => []
  | Clinic => [clinic1]
  | Appointment => [appointment1; appointment2]
  | Prescription =>
      [rx "r1" "u1" "u2" 10; rx "r2" "u3" "u2" 30; rx "r3" "u1" "u2" 20;
       rx "r4" "u1" "u5" 40; rx "r5" "d1" "p1" 50]
  end.

Definition identity (userId role : string) : Obj :=
  [("_id", oid userId); ("userId", oid userId); ("profileId", oid "d1"); ("role", VStr role)].

Definition request (userId role : string) (params query : list (string * string))
    (body : JsVal) : Request :=
  {| req_headers := []; req_params := params; req_query := query; req_body := body;
     req_file := None; req_user := identity userId role |}.

Definition bearer (authorization : list (string * string)) : Request :=
  {| req_headers := authorization; req_params := []; req_query := []; req_body := VUndef;
     req_file := None; req_user := [] |}.

Definition med (name dosage : string) : JsVal :=
  VObj [("name", VStr name); ("dosage", VStr dosage);
        ("frequency", VStr "twice a day"); ("duration", VStr "5 days")].

(** The [_id]s of the prescriptions a listing response carries, in order. *)
Definition listed (r : Response) : list JsVal :=
  match prop (body r) "prescriptions" with
  | Some (VArr docs) =>
      map (fun doc => match doc with VObj o => lookup "_id" o | _ => VUndef end) docs
  | _ => []
  end.

Definition a1 : string := "64b0000000000000000000a1".
Definition a2 : string := "64b0000000000000000000a2".

End Sample.

(** ** Further scenarios

    Variations of the sample deployment: a store or an upload service that
    fails, a development environment, requests that carry a file. *)

Module Scenario.

Definition deployment (fault : Db -> DbCall -> option JsError) (node_env : string)
    (upload : string -> JsError + JsVal) : Env :=
  {| ObjectId_isValid := ObjectId_isValid Sample.env;
     new_ObjectId := new_ObjectId Sample.env;
     db_fault := fault;
     schema_ref := schema_ref Sample.env;
     verifyAccessToken := verifyAccessToken Sample.env;
     uploadToCloudinary := upload;
     new_Date := new_Date Sample.env;
     NODE_ENV := node_env |}.

Definition timeout : JsError :=
  {| err_name := "MongoNetworkError"; err_message := "connection timed out";
     err_errors := [] |}.

Definition refused : JsError :=
  {| err_name := "ValidationError"; err_message := "Prescription validation failed";
     err_errors := [("diagnosis", "Diagnosis is too long"); ("notes", "Notes are too long")] |}.

Definition no_fault : Db -> DbCall -> option JsError := fun _ _ => None.

Definition store_down : Db -> DbCall -> option JsError := fun _ _ => Some timeout.

(** Every write to [m] fails with [e]; everything else is answered. *)
Definition writes_fail (m : Model) (e : JsError) : Db -> DbCall -> option JsError :=
  fun _ c =>
    match c with
    | CallSave m' _ => if Model_eqb m m' then Some e else None
    | _ => None
    end.

Definition upload_ok (path : string) : JsError + JsVal :=
  inr (VObj [("url", VStr ("https://cdn.example/" ++ path))]).

Definition upload_down (path : string) : JsError + JsVal :=
  inl {| err_name := "Error"; err_message := "upload failed"; err_errors := [] |}.

Definition with_file (req : Request) (path : string) : Request :=
  {| req_headers := req_headers req; req_params := req_params req;
     req_query := req_query req; req_body := req_body req;
     req_file := Some path; req_user := req_user req |}.

Definition valid_request : Request :=
  Sample.request "u1" "doctor" [("appointmentId", Sample.a1)] []
    (VObj [("diagnosis", VStr "flu");
           ("medications", VArr [Sample.med "Ibuprofen" "200mg"])]).

(** A doctor without a profile yet. *)
Definition newcomer (body : JsVal) : Request :=
  Sample.request "u3" "doctor" [] [] body.

(** A requester whose [userId] is not an object id. *)
Definition outsider (body : JsVal) : Request :=
  {| req_headers := []; req_params := []; req_query := []; req_body := body;
     req_file := None; req_user := [("userId", VStr "guest"); ("role", VStr "doctor")] |}.

Definition profile_no_fault : Db -> ProfileCall -> option JsError := fun _ _ => None.

Definition profile_down : Db -> ProfileCall -> option JsError := fun _ _ => Some timeout.

(** A store whose only doctor has neither a clinic nor appointments. *)
Definition plain_doctor : Obj :=
  [("_id", Sample.oid "d3"); ("userId", Sample.oid "u3"); ("name", VStr "Chen");
   ("specialization", VStr "Dermatology"); ("appointments", VArr []); ("__v", VNum 2)].

Definition plain_store : Db := fun m =>
  match m with
  | Doctor => [plain_doctor]
  | _ => Sample.store m
  end.

End Scenario.

(** ** The statements' own vocabulary *)

(** The query the controller looks the appointment up with. *)
Definition appointment_query (req : Request) : Obj :=
  [("_id", assoc "appointmentId" (req_params req));
   ("doctorId", lookup "userId" (req_user req))].

(** The answer of the ownership check. *)
Definition not_found_response : Response :=
  {| status := 404; body := VObj [("message", VStr "Appointment not found or not authorized")] |}.

Definition required_fields : list string := ["name"; "dosage"; "frequency"; "duration"].

(** A medication entry that lacks one of the four required fields (an
    empty or otherwise falsy field counts as lacking). *)
Definition entry_invalid (med : JsVal) : bool :=
  existsb (fun k => match prop med k with Some v => negb (truthy v) | None => false end)
    required_fields.

(** The positions, counted from [index], of the invalid entries of a list. *)
Fixpoint invalid_from (index : nat) (meds : list JsVal) : list nat :=
  match meds with
  | [] => []
  | med :: rest =>
      if entry_invalid med then index :: invalid_from (S index) rest
      else invalid_from (S index) rest
  end.

(** The model the profile of a role is looked up in. *)
Definition profile_model (role : JsVal) : option Model :=
  if role_is role "admin" then Some Admin
  else if role_is role "doctor" then Some Doctor
  else if role_is role "patient" then Some Patient
  else None.

Definition rejected (s : nat) (message : string) : AuthResult :=
  Rejected {| status := s; body := VObj [("message", VStr message)] |}.

(** A prescription of the patient [userId]. *)
Definition owned_by_patient (userId : JsVal) (d : Obj) : bool :=
  jsval_eqb (lookup "patientId" d) userId.

(** A prescription written by the doctor [userId], for the patient
    [patientId] when one is given. *)
Definition written_by_doctor (userId patientId : JsVal) (d : Obj) : bool :=
  jsval_eqb (lookup "doctorId" d) userId &&
  (if truthy patientId then jsval_eqb (lookup "patientId" d) patientId else true).

(** [a] may come before [b] in a listing by descending date. *)
Definition by_date_desc (a b : Obj) : Prop :=
  key_leb (date_key b) (date_key a) = true.

(** The member [k] of the request body, as the destructuring reads it. *)
Definition body_field (req : Request) (k : string) : JsVal :=
  match prop (req_body req) k with Some v => v | None => VUndef end.

(** What a create-prescription request may change in the store: nothing,
    or one prescription appended at the end; no other model is touched, and
    the stored appointments keep their number, order and [_id]s. *)
Definition prescription_frame (db db' : Db) : Prop :=
  (forall m, m <> Prescription -> m <> Appointment -> db' m = db m) /\
  (db' = db \/ exists p, db' Prescription = (db Prescription ++ [p])%list) /\
  map (lookup "_id") (db' Appointment) = map (lookup "_id") (db Appointment).

(** What the next handler sees of the middleware's decision: the answer
    sent, or the identity written on the request. *)
Definition auth_view (result : AuthResult * Db) : Response + Obj :=
  match fst result with
  | Rejected r => inl r
  | Passed req => inr (req_user req)
  end.

(** A word without a space. *)
Fixpoint no_space (s : string) : bool :=
  match s with
  | EmptyString => true
  | String c s' => negb (Ascii.eqb c " "%char) && no_space s'
  end.

(** * Properties *)

(** ** Values and objects *)

Lemma jsval_eqb_refl (a : JsVal) : jsval_eqb a a = true.
Proof.
  induction a using JsVal_deep_ind; simpl; auto.
  - now destruct b.
  - apply Z.eqb_refl.
  - apply String.eqb_refl.
  - induction H as [|x l Hx _ IH]; [reflexivity|].
    now rewrite Hx, IH.
  - induction H as [|[k x] l Hx _ IH]; [reflexivity|].
    simpl in Hx. now rewrite String.eqb_refl, Hx, IH.
Qed.

Lemma jsval_eqb_eq (a b : JsVal) : jsval_eqb a b = true -> a = b.
Proof.
  revert b. induction a using JsVal_deep_ind; intros [] Hab; simpl in Hab;
    try discriminate; try reflexivity.
  - f_equal. now apply Bool.eqb_prop.
  - f_equal. now apply Z.eqb_eq.
  - f_equal. now apply String.eqb_eq.
  - f_equal. revert items Hab.
    induction H as [|x l Hx _ IH]; intros [|y ys] Hab; try discriminate; [reflexivity|].
    apply andb_prop in Hab as [Hxy Hrest].
    f_equal; [now apply Hx | now apply IH].
  - f_equal. revert fields Hab.
    induction H as [|[k x] l Hx _ IH]; intros [|[k' y] ys] Hab; try discriminate; [reflexivity|].
    apply andb_prop in Hab as [Hhead Hrest].
    apply andb_prop in Hhead as [Hk Hxy].
    apply String.eqb_eq in Hk. simpl in Hx. apply Hx in Hxy.
    f_equal; [congruence | now apply IH].
Qed.

Lemma jsval_eqb_iff (a b : JsVal) : jsval_eqb a b = true <-> a = b.
Proof.
  split; [apply jsval_eqb_eq | intros ->; apply jsval_eqb_refl].
Qed.

Lemma lookup_obj_set_same (k : string) (v : JsVal) (o : Obj) :
  lookup k (obj_set k v o) = v.
Proof.
  induction o as [|[k' v'] o IH]; simpl.
  - now rewrite String.eqb_refl.
  - destruct (k' =? k) eqn:Hk; simpl.
    + now rewrite String.eqb_refl.
    + now rewrite Hk.
Qed.

Lemma lookup_obj_set_other (k k' : string) (v : JsVal) (o : Obj) :
  (k' =? k) = false -> lookup k (obj_set k' v o) = lookup k o.
Proof.
  intros Hk. induction o as [|[k'' v''] o IH]; simpl.
  - now rewrite Hk.
  - destruct (k'' =? k') eqn:Hk'; simpl.
    + apply String.eqb_eq in Hk'; subst k''. now rewrite Hk.
    + now rewrite IH.
Qed.

(** Filtering members by key keeps what is read at a key that is kept. *)
Lemma lookup_filter_keys (keep : string -> bool) (k : string) (o : Obj) :
  keep k = true -> lookup k (filter (fun kv => keep (fst kv)) o) = lookup k o.
Proof.
  intros Hk. induction o as [|[k' v'] o IH]; simpl; [reflexivity|].
  destruct (k' =? k) eqn:Hk'.
  - apply String.eqb_eq in Hk'; subst k'. rewrite Hk. simpl. now rewrite String.eqb_refl.
  - destruct (keep k'); simpl; [now rewrite Hk'|exact IH].
Qed.

Lemma lookup_select_in (ks : list string) (k : string) (d : Obj) :
  In k ks -> lookup k (select_in ks d) = lookup k d.
Proof.
  intros Hin. unfold select_in.
  apply (lookup_filter_keys (fun k' => (k' =? "_id") || existsb (String.eqb k') ks)).
  apply orb_true_intro; right. apply existsb_exists.
  exists k. split; [exact Hin | apply String.eqb_refl].
Qed.

Lemma lookup_obj_remove_other (k k' : string) (o : Obj) :
  (k =? k') = false -> lookup k (obj_remove k' o) = lookup k o.
Proof.
  intros Hk. unfold obj_remove.
  apply (lookup_filter_keys (fun x => negb (x =? k'))). now rewrite Hk.
Qed.

(** A member that is not [undefined] is read the same once the undefined
    members are dropped; one that is undefined reads [undefined] either way
    when the object has the key once. *)
Lemma lookup_defined_fields_cons (k k' : string) (v : JsVal) (o : Obj) :
  lookup k (defined_fields ((k', v) :: o)) =
  if k' =? k then (if is_undef v then lookup k (defined_fields o) else v)
  else lookup k (defined_fields o).
Proof.
  unfold defined_fields; simpl.
  destruct (is_undef v); simpl; destruct (k' =? k); reflexivity.
Qed.

Lemma is_undef_eq (v : JsVal) : is_undef v = true -> v = VUndef.
Proof. destruct v; simpl; congruence. Qed.

(** Reading any property of a value succeeds as soon as reading one does. *)
Lemma prop_total (v : JsVal) (k k' : string) (x : JsVal) :
  prop v k = Some x -> exists y, prop v k' = Some y.
Proof. destruct v; simpl; intros H; try discriminate; eauto. Qed.

Lemma find_first_In (db : Db) (m : Model) (q d : Obj) :
  find_first db m q = Some d -> In d (db m) /\ matches q d = true.
Proof.
  unfold find_first, find_docs. intros H.
  destruct (filter (matches q) (db m)) as [|d' l] eqn:Hf; [discriminate|].
  injection H as ->.
  apply filter_In. rewrite Hf. now left.
Qed.

Lemma find_first_exists (db : Db) (m : Model) (q d : Obj) :
  In d (db m) -> matches q d = true -> exists d', find_first db m q = Some d'.
Proof.
  intros Hin Hm. unfold find_first, find_docs.
  destruct (filter (matches q) (db m)) as [|d' l] eqn:Hf; [|simpl; eauto].
  assert (In d (filter (matches q) (db m))) as Hd by (apply filter_In; auto).
  rewrite Hf in Hd. destruct Hd.
Qed.

(** ** Creating a prescription *)

Ltac run_handler :=
  unfold try_catch, bind, must, reject_if, respond, ret, throw, findOne, find, findById,
    save_new, save_existing, new_doc, findOneAndUpdate, db_call.

(** C2: a create-prescription request whose body has no [medications]
    member, or an empty list, is answered 400 with an [errors] object whose
    [medications] member is 'At least one medication is required', and the
    store is left as it was: nothing is persisted, no appointment is touched. *)
Theorem C2_no_medications_400 (E : Env) (req : Request) (db : Db) (medications : JsVal) :
  prop (req_body req) "medications" = Some medications ->
  medications = VUndef \/ medications = VArr [] ->
  createPrescription E req db =
    ({| status := 400;
        body := VObj [("message", VStr "Appointment ID and medications are required");
                      ("errors", VObj [
                         ("appointmentId",
                            str_or_undef (negb (truthy (assoc "appointmentId" (req_params req))))
                              "Appointment ID is required");
                         ("medications", VStr "At least one medication is required")])] |},
     db).
Proof.
  intros Hbody Hmeds.
  unfold createPrescription, createPrescription_body. run_handler.
  destruct (req_body req) eqn:Hb; simpl in Hbody; try discriminate;
    injection Hbody as Hbody; simpl; rewrite Hbody;
    destruct Hmeds as [-> | ->]; simpl;
    rewrite ?orb_true_r; reflexivity.
Qed.

Lemma C2_no_medications_400_witness :
  status (fst (createPrescription Sample.env
                 (Sample.request "u1" "doctor" [("appointmentId", Sample.a1)] []
                    (VObj [("diagnosis", VStr "flu"); ("medications", VArr [])]))
                 Sample.store)) = 400.
Proof.
  rewrite (C2_no_medications_400 Sample.env _ Sample.store (VArr []));
    [reflexivity | reflexivity | right; reflexivity].
Defined.

(** The claim C1 as it is written fails: a request for an appointment the
    requester does not own, whose medication list is empty, is answered by
    the required-field check, with 400. *)
Lemma C1_counterexample :
  let req := Sample.request "u1" "doctor" [("appointmentId", Sample.a2)] []
               (VObj [("diagnosis", VStr "flu"); ("medications", VArr [])]) in
  find_docs Sample.store Appointment (appointment_query req) = [] /\
  status (fst (createPrescription Sample.env req Sample.store)) = 400 /\
  status (fst (createPrescription Sample.env req Sample.store)) <> 404.
Proof.
  cbv zeta. split; [reflexivity|]. split; [reflexivity|].
  vm_compute. discriminate.
Qed.

(** C1, amended: a create-prescription request that passes the
    required-field check (an [appointmentId], a non-empty [medications])
    and whose lookup finds no appointment with that id and the requester's
    [userId] as [doctorId] is answered 404 with one fixed body, and the
    store is left as it was.  The answer is the same for any two stores
    without such an appointment, whether the id is unknown or belongs to
    another doctor's appointment. *)
Theorem C1_unowned_appointment_404 (E : Env) (req : Request) (medications : JsVal) :
  prop (req_body req) "medications" = Some medications ->
  truthy (assoc "appointmentId" (req_params req)) = true ->
  no_medications medications = false ->
  (forall db,
     db_fault E db (CallFindOne Appointment (appointment_query req)) = None ->
     find_docs db Appointment (appointment_query req) = [] ->
     createPrescription E req db = (not_found_response, db)) /\
  (forall db1 db2,
     db_fault E db1 (CallFindOne Appointment (appointment_query req)) = None ->
     db_fault E db2 (CallFindOne Appointment (appointment_query req)) = None ->
     find_docs db1 Appointment (appointment_query req) = [] ->
     find_docs db2 Appointment (appointment_query req) = [] ->
     fst (createPrescription E req db1) = fst (createPrescription E req db2)).
Proof.
  intros Hbody Hid Hmeds.
  assert (forall db,
     db_fault E db (CallFindOne Appointment (appointment_query req)) = None ->
     find_docs db Appointment (appointment_query req) = [] ->
     createPrescription E req db = (not_found_response, db)) as Hone.
  { intros db Hfault Hnone.
    unfold createPrescription, createPrescription_body. run_handler.
    unfold appointment_query in Hfault, Hnone.
    destruct (req_body req) eqn:Hb; simpl in Hbody; try discriminate;
      injection Hbody as Hbody; simpl; rewrite ?Hbody, Hid, Hmeds; simpl;
      rewrite Hfault; unfold find_first; rewrite Hnone; reflexivity. }
  split; [exact Hone|].
  intros db1 db2 Hf1 Hf2 Hn1 Hn2.
  now rewrite (Hone db1 Hf1 Hn1), (Hone db2 Hf2 Hn2).
Qed.

Lemma C1_unowned_appointment_404_witness :
  let req := Sample.request "u1" "doctor" [("appointmentId", Sample.a2)] []
               (VObj [("medications", VArr [Sample.med "Aspirin" "75mg"])]) in
  let unknown := Sample.request "u1" "doctor" [("appointmentId", "64b0000000000000000000zz")] []
               (VObj [("medications", VArr [Sample.med "Aspirin" "75mg"])]) in
  createPrescription Sample.env req Sample.store = (not_found_response, Sample.store) /\
  createPrescription Sample.env unknown Sample.store = (not_found_response, Sample.store).
Proof.
  cbv zeta. split.
  - apply (C1_unowned_appointment_404 Sample.env _ (VArr [Sample.med "Aspirin" "75mg"]));
      reflexivity.
  - apply (C1_unowned_appointment_404 Sample.env _ (VArr [Sample.med "Aspirin" "75mg"]));
      reflexivity.
Defined.

Lemma med_incomplete_entry_invalid (med : JsVal) :
  med <> VUndef -> med <> VNull -> med_incomplete med = Some (entry_invalid med).
Proof.
  intros Hu Hn. unfold med_incomplete, entry_invalid, required_fields.
  destruct med; try congruence; simpl;
    now rewrite ?orb_false_r, ?orb_assoc.
Qed.

Lemma medications_forEach_invalid_from (meds : list JsVal) :
  Forall (fun med => med <> VUndef /\ med <> VNull) meds ->
  forall index acc,
    medications_forEach index meds acc =
    Some (acc ++ map med_error (invalid_from index meds))%list.
Proof.
  induction 1 as [|med rest [Hu Hn] _ IH]; intros index acc; simpl.
  - now rewrite app_nil_r.
  - rewrite (med_incomplete_entry_invalid med Hu Hn).
    destruct (entry_invalid med); simpl.
    + rewrite IH, <- app_assoc. reflexivity.
    + apply IH.
Qed.

Lemma invalid_from_spec (meds : list JsVal) :
  forall index i,
    In i (invalid_from index meds) <->
    exists med, index <= i /\ nth_error meds (i - index) = Some med /\ entry_invalid med = true.
Proof.
  induction meds as [|m rest IH]; intros index i; simpl.
  - split; [intros [] | intros (med & _ & Hnth & _)].
    now destruct (i - index).
  - assert (In i (invalid_from (S index) rest) <->
            exists med, index < i /\ nth_error (m :: rest) (i - index) = Some med /\
                        entry_invalid med = true) as Hrest.
    { rewrite IH. split; intros (med & Hle & Hnth & Hinv); exists med.
      - replace (i - index) with (S (i - S index)) by lia. auto with arith.
      - replace (i - index) with (S (i - S index)) in Hnth by lia. auto with arith. }
    destruct (entry_invalid m) eqn:Hm; simpl; rewrite ?Hrest; split.
    + intros [<- | (med & Hlt & Hnth & Hinv)].
      * exists m. rewrite Nat.sub_diag. auto.
      * exists med. auto with arith.
    + intros (med & Hle & Hnth & Hinv).
      destruct (Nat.eq_dec index i) as [->|Hne]; [now left|].
      right. exists med. split; [lia|auto].
    + intros (med & Hlt & Hnth & Hinv). exists med. auto with arith.
    + intros (med & Hle & Hnth & Hinv).
      destruct (Nat.eq_dec index i) as [->|Hne].
      * rewrite Nat.sub_diag in Hnth. simpl in Hnth. congruence.
      * exists med. split; [lia|auto].
Qed.

Lemma invalid_from_NoDup (meds : list JsVal) :
  forall index, NoDup (invalid_from index meds).
Proof.
  induction meds as [|m rest IH]; intros index; simpl; [constructor|].
  destruct (entry_invalid m); [|apply IH].
  constructor; [|apply IH].
  intros Hin. apply invalid_from_spec in Hin as (med & Hle & _). lia.
Qed.

Lemma append_cancel_l (s a b : string) : s ++ a = s ++ b -> a = b.
Proof. induction s as [|c s IH]; simpl; intros H; [exact H | injection H; auto]. Qed.

Lemma length_append (a b : string) :
  String.length (a ++ b) = String.length a + String.length b.
Proof. induction a as [|c a IH]; simpl; [reflexivity | now rewrite IH]. Qed.

Lemma append_cancel_r (s a b : string) : a ++ s = b ++ s -> a = b.
Proof.
  revert b. induction a as [|c a IH]; intros [|c' b] H; simpl in H.
  - reflexivity.
  - apply (f_equal String.length) in H. simpl in H. rewrite length_append in H. lia.
  - apply (f_equal String.length) in H. simpl in H. rewrite length_append in H. lia.
  - injection H as -> H. f_equal. now apply IH.
Qed.

Lemma decimal_inj (n m : nat) : decimal n = decimal m -> n = m.
Proof.
  unfold decimal. intros H. apply Unsigned.to_uint_inj.
  apply (f_equal NilEmpty.uint_of_string) in H.
  rewrite !NilEmpty.usu in H. congruence.
Qed.

(** Two positions are named by two different messages. *)
Lemma med_error_inj : Injective med_error.
Proof.
  intros i j H. unfold med_error in H.
  apply append_cancel_l, append_cancel_r, decimal_inj in H. lia.
Qed.

(** The claim C3 as it is written fails: when the appointment is not the
    requester's, a request with an incomplete medication entry is answered
    404 by the ownership check and no medication error is reported. *)
Lemma C3_counterexample :
  let req := Sample.request "u1" "doctor" [("appointmentId", Sample.a2)] []
               (VObj [("medications", VArr [VObj [("name", VStr "Aspirin")]])]) in
  entry_invalid (VObj [("name", VStr "Aspirin")]) = true /\
  fst (createPrescription Sample.env req Sample.store) = not_found_response /\
  status (fst (createPrescription Sample.env req Sample.store)) <> 400.
Proof.
  cbv zeta. split; [reflexivity|]. split; [reflexivity|].
  vm_compute. discriminate.
Qed.

(** C3, amended: for a create-prescription request with an [appointmentId]
    and a non-empty list of medication entries (none of them [null]) whose
    appointment is found for the requester, the entries lacking one of
    name, dosage, frequency, duration, and only they, each contribute one
    error 'Medication <position> is missing required fields', and when
    there is such an entry all these errors are returned, in order, in the
    [errors] array of one 400 response; the store is left as it was. *)
Theorem C3_medication_errors_batched (E : Env) (req : Request) (db : Db)
    (meds : list JsVal) (appointment : Obj) :
  prop (req_body req) "medications" = Some (VArr meds) ->
  truthy (assoc "appointmentId" (req_params req)) = true ->
  meds <> [] ->
  Forall (fun med => med <> VUndef /\ med <> VNull) meds ->
  db_fault E db (CallFindOne Appointment (appointment_query req)) = None ->
  find_first db Appointment (appointment_query req) = Some appointment ->
  (forall i, In i (invalid_from 0 meds) <->
             exists med, nth_error meds i = Some med /\ entry_invalid med = true) /\
  (forall i med k,
     nth_error meds i = Some med -> In k required_fields -> prop med k = Some VUndef ->
     In i (invalid_from 0 meds)) /\
  NoDup (map med_error (invalid_from 0 meds)) /\
  (invalid_from 0 meds <> [] ->
   createPrescription E req db =
     ({| status := 400;
         body := VObj [("message", VStr "Medication validation failed");
                       ("errors", VArr (map (fun i => VStr (med_error i))
                                          (invalid_from 0 meds)))] |},
      db)).
Proof.
  intros Hbody Hid Hne Hobj Hfault Hfound.
  assert (forall i, In i (invalid_from 0 meds) <->
                    exists med, nth_error meds i = Some med /\ entry_invalid med = true)
    as Hspec.
  { intros i. rewrite invalid_from_spec, Nat.sub_0_r.
    split; intros (med & H); exists med; intuition lia. }
  split; [exact Hspec|]. split; [|split].
  - intros i med k Hnth Hk Hmissing.
    apply Hspec. exists med. split; [exact Hnth|].
    unfold entry_invalid. apply existsb_exists. exists k. split; [exact Hk|].
    now rewrite Hmissing.
  - apply Injective_map_NoDup; [apply med_error_inj | apply invalid_from_NoDup].
  - intros Hinvalid.
    unfold createPrescription, createPrescription_body. run_handler.
    unfold appointment_query in Hfault, Hfound.
    assert (no_medications (VArr meds) = false) as Hmeds
      by (destruct meds; [congruence | reflexivity]).
    destruct (req_body req) eqn:Hb; simpl in Hbody; try discriminate;
      injection Hbody as Hbody; simpl; rewrite ?Hbody, Hid, Hmeds; simpl;
      rewrite Hfault, Hfound;
      unfold validate_medications;
      rewrite (medications_forEach_invalid_from meds Hobj 0 []); simpl;
      rewrite length_map;
      (destruct (invalid_from 0 meds) as [|i l] eqn:Hinv; [congruence|]); simpl;
      rewrite map_map; reflexivity.
Qed.

Lemma C3_medication_errors_batched_witness :
  createPrescription Sample.env
    (Sample.request "u1" "doctor" [("appointmentId", Sample.a1)] []
       (VObj [("medications",
               VArr [VObj [("name", VStr "Aspirin")];
                     Sample.med "Ibuprofen" "200mg";
                     VObj [("name", VStr "Zinc"); ("dosage", VStr "10mg");
                           ("frequency", VStr ""); ("duration", VStr "7 days")]])]))
    Sample.store =
  ({| status := 400;
      body := VObj [("message", VStr "Medication validation failed");
                    ("errors", VArr [VStr "Medication 1 is missing required fields";
                                     VStr "Medication 3 is missing required fields"])] |},
   Sample.store).
Proof.
  refine (proj2 (proj2 (proj2 (C3_medication_errors_batched Sample.env _ Sample.store
                   [VObj [("name", VStr "Aspirin")];
                    Sample.med "Ibuprofen" "200mg";
                    VObj [("name", VStr "Zinc"); ("dosage", VStr "10mg");
                          ("frequency", VStr ""); ("duration", VStr "7 days")]]
                   Sample.appointment1 _ _ _ _ _ _))) _);
    try reflexivity; try discriminate.
  repeat constructor; discriminate.
Defined.

(** *** A successful creation *)

Ltac run_handler_in H :=
  unfold try_catch, bind, must, reject_if, respond, ret, throw, findOne, find, findById,
    save_new, save_existing, new_doc, findOneAndUpdate, db_call in H.

(** One step along a handler run recorded in [H]: case analysis on the
    next test the handler makes. *)
Ltac step H :=
  match type of H with
  | context [match prop ?v ?k with _ => _ end] => destruct (prop v k) eqn:?
  | context [match db_fault ?E ?d ?c with _ => _ end] => destruct (db_fault E d c) eqn:?
  | context [match find_first ?d ?m ?q with _ => _ end] => destruct (find_first d m q) eqn:?
  | context [match validate_medications ?m with _ => _ end] =>
      destruct (validate_medications m) eqn:?
  | context [if ?c then _ else _] => destruct c eqn:?
  end; cbv beta iota in H.

(** The run recorded in [H] ended with a status other than the one [Hst] asks for. *)
Ltac not_this_status H Hst :=
  apply pair_equal_spec in H as [<- <-]; cbv [status] in Hst; discriminate.

Lemma lookup_new_prescription (id aid did pid dg md ts nt fu : JsVal) :
  let prescription :=
    obj_set "_id" id
      (defined_fields [("appointmentId", aid); ("doctorId", did); ("patientId", pid);
                       ("diagnosis", dg); ("medications", md); ("tests", ts);
                       ("notes", nt); ("followUpDate", fu)]) in
  lookup "doctorId" prescription = did /\ lookup "patientId" prescription = pid.
Proof.
  cbv zeta. split.
  - rewrite lookup_obj_set_other by reflexivity.
    repeat rewrite lookup_defined_fields_cons. simpl.
    destruct (is_undef did) eqn:Hd; [|reflexivity].
    now apply is_undef_eq in Hd.
  - rewrite lookup_obj_set_other by reflexivity.
    repeat rewrite lookup_defined_fields_cons. simpl.
    destruct (is_undef pid) eqn:Hd; [|reflexivity].
    now apply is_undef_eq in Hd.
Qed.

Lemma matches_appointment_query (req : Request) (d : Obj) :
  matches (appointment_query req) d = true ->
  lookup "_id" d = assoc "appointmentId" (req_params req) /\
  lookup "doctorId" d = lookup "userId" (req_user req).
Proof.
  unfold matches, appointment_query. simpl. intros H.
  apply andb_prop in H as [Hid H]. apply andb_prop in H as [Hdoc _].
  split; now apply jsval_eqb_eq.
Qed.

(** C4: when a create-prescription request succeeds (201), the appointment
    found for the requester and the prescription appended to the store are
    such that the prescription's [doctorId] is the appointment's [doctorId]
    (both the requester's [userId]), its [patientId] is the appointment's
    [patientId], and the stored appointment is replaced by one whose
    [prescriptionId] is the new prescription's [_id]. *)
Theorem C4_created_prescription_linked (E : Env) (req : Request) (db db' : Db) (r : Response) :
  createPrescription E req db = (r, db') ->
  status r = 201 ->
  exists appointment prescription : Obj,
    find_first db Appointment (appointment_query req) = Some appointment /\
    db' Prescription = (db Prescription ++ [prescription])%list /\
    prop (body r) "prescription" = Some (VObj prescription) /\
    lookup "doctorId" prescription = lookup "userId" (req_user req) /\
    lookup "doctorId" appointment = lookup "userId" (req_user req) /\
    lookup "patientId" prescription = lookup "patientId" appointment /\
    let updated := obj_set "prescriptionId" (lookup "_id" prescription) appointment in
    lookup "prescriptionId" updated = lookup "_id" prescription /\
    In updated (db' Appointment) /\
    db' Appointment =
      map (fun d => if jsval_eqb (lookup "_id" d) (lookup "_id" appointment) then updated else d)
        (db Appointment).
Proof.
  intros Hrun Hst.
  unfold createPrescription, createPrescription_body in Hrun. run_handler_in Hrun.
  unfold catch_write in Hrun.
  repeat (step Hrun; try (not_this_status Hrun Hst)).
  all: apply pair_equal_spec in Hrun as [<- <-].
  all: match goal with
       | Hf : find_first ?d Appointment _ = Some ?a |- _ =>
           destruct (find_first_In _ _ _ _ Hf) as [Hin Hm];
           apply (matches_appointment_query req) in Hm as [_ Hdoc];
           match goal with
           | |- context [insert_doc d Prescription ?p] => exists a, p
           end
       end.
  all: match goal with
       | |- context [obj_set "_id" ?id (defined_fields
                       [(_, ?aid); (_, ?did); (_, ?pid); (_, ?dg); (_, ?md); (_, ?ts);
                        (_, ?nt); (_, ?fu)])] =>
           destruct (lookup_new_prescription id aid did pid dg md ts nt fu) as [Hd Hp];
           cbv zeta in Hd, Hp;
           set (prescription := obj_set "_id" id (defined_fields
                  [("appointmentId", aid); ("doctorId", did); ("patientId", pid);
                   ("diagnosis", dg); ("medications", md); ("tests", ts);
                   ("notes", nt); ("followUpDate", fu)])) in *;
           clearbody prescription
       end.
  all: assert (forall (v : JsVal) (a : Obj),
                 lookup "_id" (obj_set "prescriptionId" v a) = lookup "_id" a) as Hsame
         by (intros; now apply lookup_obj_set_other).
  all: repeat split; auto using lookup_obj_set_same.
  all: unfold replace_doc, insert_doc, set_collection; simpl; rewrite Hsame.
  all: try reflexivity.
  all: match goal with
       | Hin : In ?a _ |- In _ (map _ _) =>
           apply in_map_iff; exists a; split; [now rewrite jsval_eqb_refl | exact Hin]
       end.
Qed.

Lemma C4_created_prescription_linked_witness :
  let req := Sample.request "u1" "doctor" [("appointmentId", Sample.a1)] []
               (VObj [("diagnosis", VStr "flu");
                      ("medications", VArr [Sample.med "Ibuprofen" "200mg"])]) in
  let run := createPrescription Sample.env req Sample.store in
  status (fst run) = 201 /\
  exists appointment prescription : Obj,
    find_first Sample.store Appointment (appointment_query req) = Some appointment /\
    snd run Prescription = (Sample.store Prescription ++ [prescription])%list /\
    prop (body (fst run)) "prescription" = Some (VObj prescription) /\
    lookup "doctorId" prescription = lookup "userId" (req_user req) /\
    lookup "doctorId" appointment = lookup "userId" (req_user req) /\
    lookup "patientId" prescription = lookup "patientId" appointment /\
    let updated := obj_set "prescriptionId" (lookup "_id" prescription) appointment in
    lookup "prescriptionId" updated = lookup "_id" prescription /\
    In updated (snd run Appointment) /\
    snd run Appointment =
      map (fun d => if jsval_eqb (lookup "_id" d) (lookup "_id" appointment) then updated else d)
        (Sample.store Appointment).
Proof.
  cbv zeta. split; [reflexivity|].
  apply (C4_created_prescription_linked Sample.env);
    [apply surjective_pairing | reflexivity].
Defined.

(** ** The authentication middleware *)

(** The claim C5 as it is written fails: a request whose token the token
    service refuses as expired is answered 403, not 401. *)
Lemma C5_counterexample :
  let req := Sample.bearer [("authorization", "Bearer stale")] in
  (exists error, verifyAccessToken Sample.env (VStr "stale") = inl error) /\
  authenticate Sample.env req Sample.store =
    (rejected 403 "Invalid or expired token", Sample.store) /\
  fst (authenticate Sample.env req Sample.store) <> rejected 401 "Authentication required".
Proof.
  cbv zeta. split; [eexists; reflexivity|]. split; [reflexivity|].
  vm_compute. discriminate.
Qed.

Lemma lookup_select_out_other (ks : list string) (k : string) (d : Obj) :
  existsb (String.eqb k) ks = false -> lookup k (select_out ks d) = lookup k d.
Proof.
  unfold select_out. revert d. induction ks as [|k' ks IH]; intros d Hk; simpl in *.
  - reflexivity.
  - apply orb_false_elim in Hk as [Hk' Hks].
    rewrite IH by exact Hks. now apply lookup_obj_remove_other.
Qed.

(** C5, amended: the middleware answers 401 when there is no token, 403
    when the token service refuses the token (invalid or expired), 404 when
    the user record is absent and 404 when the role has no profile record;
    otherwise it calls the next handler on the request with [req.user] set
    to the user's fields (without password and refresh token) merged with
    [userId], [profileId] and [role].  The store is never changed. *)
Theorem C5_authenticate_outcomes (E : Env) (req : Request) (db : Db) :
  let token := token_of (assoc "authorization" (req_headers req)) in
  (truthy token = false ->
     authenticate E req db = (rejected 401 "Authentication required", db)) /\
  (truthy token = true ->
     (forall error, verifyAccessToken E token = inl error ->
        authenticate E req db = (rejected 403 "Invalid or expired token", db)) /\
     (forall decoded id,
        verifyAccessToken E token = inr decoded ->
        prop decoded "userId" = Some id ->
        db_fault E db (CallFindById User id) = None ->
        (find_first db User [("_id", id)] = None ->
           authenticate E req db = (rejected 404 "User not found", db)) /\
        (forall stored,
           find_first db User [("_id", id)] = Some stored ->
           let user := select_out ["password"; "refreshToken"] stored in
           let byUser := [("userId", lookup "_id" user)] in
           (profile_model (lookup "role" user) = None ->
              authenticate E req db = (rejected 404 "Profile not found", db)) /\
           (forall m,
              profile_model (lookup "role" user) = Some m ->
              db_fault E db (CallFindOne m byUser) = None ->
              (find_first db m byUser = None ->
                 authenticate E req db = (rejected 404 "Profile not found", db)) /\
              (forall profile,
                 find_first db m byUser = Some profile ->
                 exists identity,
                   authenticate E req db = (Passed (set_user req identity), db) /\
                   lookup "userId" identity = lookup "_id" user /\
                   lookup "profileId" identity = lookup "_id" profile /\
                   lookup "role" identity = lookup "role" user /\
                   forall k, existsb (String.eqb k) ["userId"; "profileId"; "role"] = false ->
                             lookup k identity = lookup k user))))).
Proof.
  cbv zeta. unfold authenticate, authenticate_body. run_handler.
  set (token := token_of (assoc "authorization" (req_headers req))).
  split; [intros ->; reflexivity|].
  intros ->. cbn [negb]. cbv beta iota. split; [intros error ->; reflexivity|].
  intros decoded id -> Hid Hfault. cbv beta iota. rewrite Hid. cbv beta iota. rewrite Hfault.
  split; [intros ->; reflexivity|].
  intros stored ->. cbn [option_map populate_all fold_left]. cbv beta iota.
  set (user := select_out ["password"; "refreshToken"] stored).
  unfold profile_model.
  split.
  - destruct (role_is (lookup "role" user) "admin"); [intros Hrole; discriminate|].
    destruct (role_is (lookup "role" user) "doctor"); [intros Hrole; discriminate|].
    destruct (role_is (lookup "role" user) "patient"); [intros Hrole; discriminate|].
    reflexivity.
  - intros m Hrole Hfault'.
    assert ((if role_is (lookup "role" user) "admin"
             then findOne E Admin [("userId", lookup "_id" user)]
             else if role_is (lookup "role" user) "doctor"
                  then findOne E Doctor [("userId", lookup "_id" user)]
                  else if role_is (lookup "role" user) "patient"
                       then findOne E Patient [("userId", lookup "_id" user)]
                       else ret None) db
            = (Next (find_first db m [("userId", lookup "_id" user)]), db)) as Hprofile.
    { revert Hrole.
      destruct (role_is (lookup "role" user) "admin");
        [|destruct (role_is (lookup "role" user) "doctor");
          [|destruct (role_is (lookup "role" user) "patient");
             [|intros Hrole; discriminate]]];
        intros Hrole; injection Hrole as <-; unfold findOne, db_call; now rewrite Hfault'. }
    unfold findOne, db_call, ret in Hprofile |- *. rewrite Hprofile.
    split; [intros ->; reflexivity|].
    intros profile ->. eexists. split; [reflexivity|].
    repeat split.
    + rewrite lookup_obj_set_other, lookup_obj_set_other by reflexivity.
      apply lookup_obj_set_same.
    + rewrite lookup_obj_set_other by reflexivity. apply lookup_obj_set_same.
    + apply lookup_obj_set_same.
    + intros k Hk. simpl in Hk.
      apply orb_false_elim in Hk as [Hu Hk]. apply orb_false_elim in Hk as [Hp Hk].
      apply orb_false_elim in Hk as [Hr _].
      rewrite String.eqb_sym in Hu, Hp, Hr.
      now rewrite !lookup_obj_set_other.
Qed.

Lemma C5_authenticate_outcomes_witness :
  authenticate Sample.env (Sample.bearer []) Sample.store =
    (rejected 401 "Authentication required", Sample.store) /\
  authenticate Sample.env (Sample.bearer [("authorization", "Bearer stale")]) Sample.store =
    (rejected 403 "Invalid or expired token", Sample.store) /\
  authenticate Sample.env (Sample.bearer [("authorization", "Bearer token-of-u9")]) Sample.store =
    (rejected 404 "User not found", Sample.store) /\
  authenticate Sample.env (Sample.bearer [("authorization", "Bearer token-of-u3")]) Sample.store =
    (rejected 404 "Profile not found", Sample.store) /\
  exists identity,
    authenticate Sample.env (Sample.bearer [("authorization", "Bearer token-of-u1")]) Sample.store =
      (Passed (set_user (Sample.bearer [("authorization", "Bearer token-of-u1")]) identity),
       Sample.store) /\
    lookup "userId" identity = Sample.oid "u1" /\
    lookup "profileId" identity = Sample.oid "d1" /\
    lookup "role" identity = VStr "doctor" /\
    lookup "name" identity = VStr "Asha" /\
    lookup "password" identity = VUndef.
Proof.
  split; [|split; [|split; [|split]]].
  - apply (proj1 (C5_authenticate_outcomes Sample.env (Sample.bearer []) Sample.store)).
    reflexivity.
  - pose proof (C5_authenticate_outcomes Sample.env
                  (Sample.bearer [("authorization", "Bearer stale")]) Sample.store) as H.
    cbv zeta in H. destruct H as [_ H]. destruct (H eq_refl) as [H403 _].
    eapply H403. reflexivity.
  - pose proof (C5_authenticate_outcomes Sample.env
                  (Sample.bearer [("authorization", "Bearer token-of-u9")]) Sample.store) as H.
    cbv zeta in H. destruct H as [_ H]. destruct (H eq_refl) as [_ Hverified].
    destruct (Hverified (VObj [("userId", Sample.oid "u9")]) (Sample.oid "u9")
                eq_refl eq_refl eq_refl) as [Hnone _].
    apply Hnone. reflexivity.
  - pose proof (C5_authenticate_outcomes Sample.env
                  (Sample.bearer [("authorization", "Bearer token-of-u3")]) Sample.store) as H.
    cbv zeta in H. destruct H as [_ H]. destruct (H eq_refl) as [_ Hverified].
    destruct (Hverified (VObj [("userId", Sample.oid "u3")]) (Sample.oid "u3")
                eq_refl eq_refl eq_refl) as [_ Huser].
    destruct (Huser Sample.user3 eq_refl) as [_ Hrole].
    destruct (Hrole Doctor eq_refl eq_refl) as [Hnone _].
    apply Hnone. reflexivity.
  - pose proof (C5_authenticate_outcomes Sample.env
                  (Sample.bearer [("authorization", "Bearer token-of-u1")]) Sample.store) as H.
    cbv zeta in H. destruct H as [_ H]. destruct (H eq_refl) as [_ Hverified].
    destruct (Hverified (VObj [("userId", Sample.oid "u1")]) (Sample.oid "u1")
                eq_refl eq_refl eq_refl) as [_ Huser].
    destruct (Huser Sample.user1 eq_refl) as [_ Hrole].
    destruct (Hrole Doctor eq_refl eq_refl) as [_ Hprofile].
    destruct (Hprofile Sample.doctor1 eq_refl) as [identity [Hrun [Hu [Hp [Hr Hk]]]]].
    exists identity.
    split; [exact Hrun|]. split; [exact Hu|]. split; [exact Hp|]. split; [exact Hr|].
    split; [exact (Hk "name" eq_refl) | exact (Hk "password" eq_refl)].
Defined.

(** ** The doctor-profile controller *)

(** C6: a create-doctor-profile request by a user (whose id is a
    well-formed object id, as a stored user's is) for whom the store holds a
    Doctor record with the same [userId] is answered 409, and the store is
    left as it was: the lookup comes before the field validation, the upload
    and the write. *)
Theorem C6_duplicate_profile_409 (E : Env) (req : Request) (db : Db) (existing : Obj) :
  let userId := lookup "userId" (req_user req) in
  ObjectId_isValid E userId = true ->
  db_fault E db (CallFindOne Doctor [("userId", userId)]) = None ->
  In existing (db Doctor) ->
  lookup "userId" existing = userId ->
  createDoctorProfile E req db =
    ({| status := 409; body := VObj [("message", VStr "Doctor profile already exists")] |}, db).
Proof.
  cbv zeta. intros Hvalid Hfault Hin Hsame.
  destruct (find_first_exists db Doctor [("userId", lookup "userId" (req_user req))] existing Hin)
    as [found Hfound].
  { unfold matches. simpl. now rewrite Hsame, jsval_eqb_refl. }
  unfold createDoctorProfile, createDoctorProfile_body. run_handler.
  rewrite Hvalid. cbn [negb]. cbv beta iota.
  now rewrite Hfault, Hfound.
Qed.

Lemma C6_duplicate_profile_409_witness :
  createDoctorProfile Sample.env
    (Sample.request "u1" "doctor" [] []
       (VObj [("specialization", VStr "Neurology"); ("qualifications", VStr "MD")]))
    Sample.store =
  ({| status := 409; body := VObj [("message", VStr "Doctor profile already exists")] |},
   Sample.store).
Proof.
  apply (C6_duplicate_profile_409 Sample.env _ Sample.store Sample.doctor1);
    [reflexivity | reflexivity | now left | reflexivity].
Defined.

(** C7: an update-doctor-profile request whose body is empty (no body, or
    an object without members) and which carries no file is answered 400,
    and the store is left as it was: nothing is uploaded or written. *)
Theorem C7_empty_update_400 (E : Env) (req : Request) (db : Db) :
  req_body req = VUndef \/ req_body req = VObj [] ->
  req_file req = None ->
  updateDoctorProfile E req db =
    ({| status := 400; body := VObj [("message", VStr "No updates provided")] |}, db).
Proof.
  intros Hbody Hfile.
  unfold updateDoctorProfile, updateDoctorProfile_body. run_handler.
  rewrite Hfile. now destruct Hbody as [-> | ->].
Qed.

Lemma C7_empty_update_400_witness :
  updateDoctorProfile Sample.env (Sample.request "u1" "doctor" [] [] (VObj [])) Sample.store =
  ({| status := 400; body := VObj [("message", VStr "No updates provided")] |}, Sample.store).
Proof.
  apply (C7_empty_update_400 Sample.env); [right; reflexivity | reflexivity].
Defined.

(** C8: a get-doctors-by-clinic request with a well-formed [clinicId] is
    answered 404 with a [suggestions] member when no Doctor record has that
    [clinicId] (so never 200 with an empty list), and 200 with a [count]
    equal to the number of matching records otherwise. *)
Theorem C8_doctors_by_clinic (E : Env) (req : Request) (db : Db) :
  let clinicId := assoc "clinicId" (req_params req) in
  let matching := find_docs db Doctor [("clinicId", clinicId)] in
  ObjectId_isValid E clinicId = true ->
  db_fault E db (CallFind Doctor [("clinicId", clinicId)]) = None ->
  (matching = [] ->
     getDoctorsByClinic E req db =
       ({| status := 404;
           body := VObj [("message", VStr "No doctors found for this clinic");
                         ("suggestions", VStr "Check if the clinic ID is correct")] |}, db)) /\
  (matching <> [] ->
     exists doctors,
       getDoctorsByClinic E req db =
         ({| status := 200;
             body := VObj [("count", VNum (Z.of_nat (List.length matching)));
                           ("doctors", VArr (map VObj doctors))] |}, db) /\
       List.length doctors = List.length matching).
Proof.
  cbv zeta. intros Hvalid Hfault.
  unfold getDoctorsByClinic, getDoctorsByClinic_body. run_handler.
  rewrite Hvalid. cbn [negb]. cbv beta iota. rewrite Hfault.
  split.
  - intros ->. reflexivity.
  - intros Hsome.
    exists (map (fun d => populate_all E db Doctor [("clinicId", ["name"; "location"])]
                            (select_out ["appointments"; "ratings"; "__v"] d))
              (find_docs db Doctor [("clinicId", assoc "clinicId" (req_params req))])).
    rewrite length_map.
    destruct (find_docs db Doctor [("clinicId", assoc "clinicId" (req_params req))])
      as [|d l] eqn:Hdocs; [congruence|].
    split; [|now rewrite ?length_map].
    unfold listing. now rewrite ?length_map.
Qed.

Lemma C8_doctors_by_clinic_witness :
  status (fst (getDoctorsByClinic Sample.env
                 (Sample.request "u2" "patient" [("clinicId", "64b0000000000000000000c7")] []
                    VUndef) Sample.store)) = 404 /\
  exists doctors,
    getDoctorsByClinic Sample.env
      (Sample.request "u2" "patient" [("clinicId", "64b0000000000000000000c1")] [] VUndef)
      Sample.store =
    ({| status := 200;
        body := VObj [("count", VNum 1); ("doctors", VArr (map VObj doctors))] |},
     Sample.store) /\
    List.length doctors = 1%nat.
Proof.
  split.
  - rewrite (proj1 (C8_doctors_by_clinic Sample.env
                      (Sample.request "u2" "patient" [("clinicId", "64b0000000000000000000c7")]
                         [] VUndef) Sample.store eq_refl eq_refl) eq_refl).
    reflexivity.
  - apply (proj2 (C8_doctors_by_clinic Sample.env
                    (Sample.request "u2" "patient" [("clinicId", "64b0000000000000000000c1")]
                       [] VUndef) Sample.store eq_refl eq_refl)).
    discriminate.
Defined.

(** ** The prescription listings *)

Lemma key_leb_total (a b : option Z) : key_leb a b = false -> key_leb b a = true.
Proof.
  destruct a as [x|], b as [y|]; simpl; try congruence.
  intros H. apply Z.leb_gt in H. apply Z.leb_le. lia.
Qed.

Lemma key_leb_trans (a b c : option Z) :
  key_leb a b = true -> key_leb b c = true -> key_leb a c = true.
Proof.
  destruct a as [x|], b as [y|], c as [z|]; simpl; try congruence.
  rewrite !Z.leb_le. lia.
Qed.

Lemma insert_desc_perm (d : Obj) (l : list Obj) : Permutation (insert_desc d l) (d :: l).
Proof.
  induction l as [|d' l IH]; simpl; [reflexivity|].
  destruct (key_leb (date_key d') (date_key d)); [reflexivity|].
  rewrite IH. apply perm_swap.
Qed.

Lemma sort_date_desc_perm (l : list Obj) : Permutation (sort_date_desc l) l.
Proof.
  induction l as [|d l IH]; simpl; [reflexivity|].
  rewrite insert_desc_perm. now constructor.
Qed.

Lemma insert_desc_sorted (d : Obj) (l : list Obj) :
  StronglySorted by_date_desc l -> StronglySorted by_date_desc (insert_desc d l).
Proof.
  induction 1 as [|d' l Hsorted IH Hall]; simpl.
  - repeat constructor.
  - destruct (key_leb (date_key d') (date_key d)) eqn:Hle.
    + constructor; [now constructor|].
      constructor; [exact Hle|].
      eapply Forall_impl; [|exact Hall].
      intros x Hx. unfold by_date_desc in *. eapply key_leb_trans; eauto.
    + constructor; [exact IH|].
      eapply Permutation_Forall; [symmetry; apply insert_desc_perm|].
      constructor; [|exact Hall].
      now apply key_leb_total.
Qed.

Lemma sort_date_desc_sorted (l : list Obj) : StronglySorted by_date_desc (sort_date_desc l).
Proof.
  induction l as [|d l IH]; simpl; [constructor | now apply insert_desc_sorted].
Qed.

(** Populating a path other than [date] keeps the date. *)
Lemma date_key_populate (E : Env) (db : Db) (m : Model) (path : string)
    (select : list string) (d : Obj) :
  (path =? "date") = false -> date_key (populate E db m path select d) = date_key d.
Proof.
  intros Hpath. unfold populate, date_key.
  destruct (lookup path d); try reflexivity;
    destruct (find_first db (schema_ref E m path) _);
    now rewrite lookup_obj_set_other.
Qed.

Lemma date_key_populate_all (E : Env) (db : Db) (m : Model)
    (paths : list (string * list string)) (d : Obj) :
  forallb (fun ps => negb (fst ps =? "date")) paths = true ->
  date_key (populate_all E db m paths d) = date_key d.
Proof.
  unfold populate_all. revert d.
  induction paths as [|[path select] paths IH]; intros d Hpaths; simpl in *; [reflexivity|].
  apply andb_prop in Hpaths as [Hpath Hrest].
  rewrite IH by exact Hrest.
  apply date_key_populate. now apply negb_true_iff.
Qed.

Lemma sorted_populated (E : Env) (db : Db) (m : Model)
    (paths : list (string * list string)) (l : list Obj) :
  forallb (fun ps => negb (fst ps =? "date")) paths = true ->
  StronglySorted by_date_desc l ->
  StronglySorted by_date_desc (map (populate_all E db m paths) l).
Proof.
  intros Hpaths. induction 1 as [|d l Hsorted IH Hall]; simpl; constructor; [exact IH|].
  apply Forall_map. eapply Forall_impl; [|exact Hall].
  intros x Hx. unfold by_date_desc in *.
  now rewrite !date_key_populate_all.
Qed.

(** C9: the patient listing returns the stored prescriptions whose
    [patientId] is the requester's [userId], and the doctor listing those
    whose [doctorId] is the requester's [userId] and, when a [patientId] is
    given in the query, whose [patientId] is that one; each, with its
    references populated, in descending order of date, with a [count] equal
    to the number of records returned. *)
Theorem C9_prescription_listings (E : Env) (req : Request) (db : Db) :
  let userId := lookup "userId" (req_user req) in
  let patientId := assoc "patientId" (req_query req) in
  (db_fault E db (CallFind Prescription [("patientId", userId)]) = None ->
   exists selected returned,
     Permutation selected (filter (owned_by_patient userId) (db Prescription)) /\
     returned = map (populate_all E db Prescription
                       [("doctorId", ["name"; "specialization"]); ("appointmentId", ["date"])])
                  selected /\
     StronglySorted by_date_desc returned /\
     getPatientPrescriptions E req db =
       ({| status := 200;
           body := VObj [("count", VNum (Z.of_nat (List.length returned)));
                         ("prescriptions", VArr (map VObj returned))] |}, db)) /\
  (db_fault E db (CallFind Prescription (doctor_query userId patientId)) = None ->
   exists selected returned,
     Permutation selected (filter (written_by_doctor userId patientId) (db Prescription)) /\
     returned = map (populate_all E db Prescription
                       [("patientId", ["name"]); ("appointmentId", ["date"])])
                  selected /\
     StronglySorted by_date_desc returned /\
     getDoctorPrescriptions E req db =
       ({| status := 200;
           body := VObj [("count", VNum (Z.of_nat (List.length returned)));
                         ("prescriptions", VArr (map VObj returned))] |}, db)).
Proof.
  cbv zeta. split; intros Hfault.
  - exists (sort_date_desc (find_docs db Prescription
                              [("patientId", lookup "userId" (req_user req))])).
    eexists. split; [|split; [reflexivity|split]].
    + rewrite sort_date_desc_perm. unfold find_docs.
      rewrite (filter_ext (matches [("patientId", lookup "userId" (req_user req))])
                 (owned_by_patient (lookup "userId" (req_user req)))); [reflexivity|].
      intros d. unfold matches, owned_by_patient. simpl. apply andb_true_r.
    + apply sorted_populated; [reflexivity | apply sort_date_desc_sorted].
    + unfold getPatientPrescriptions, getPatientPrescriptions_body. run_handler.
      now rewrite Hfault.
  - exists (sort_date_desc (find_docs db Prescription
                              (doctor_query (lookup "userId" (req_user req))
                                 (assoc "patientId" (req_query req))))).
    eexists. split; [|split; [reflexivity|split]].
    + rewrite sort_date_desc_perm. unfold find_docs.
      rewrite (filter_ext (matches (doctor_query (lookup "userId" (req_user req))
                                      (assoc "patientId" (req_query req))))
                 (written_by_doctor (lookup "userId" (req_user req))
                    (assoc "patientId" (req_query req)))); [reflexivity|].
      intros d. unfold matches, written_by_doctor, doctor_query.
      destruct (truthy (assoc "patientId" (req_query req))); simpl;
        now rewrite ?andb_true_r.
    + apply sorted_populated; [reflexivity | apply sort_date_desc_sorted].
    + unfold getDoctorPrescriptions, getDoctorPrescriptions_body. run_handler.
      now rewrite Hfault.
Qed.

Lemma C9_prescription_listings_witness :
  let patient := Sample.request "u2" "patient" [] [] VUndef in
  let doctor := Sample.request "u1" "doctor" []
                  [("patientId", "64b0000000000000000000u2")] VUndef in
  (exists selected returned,
     Permutation selected
       (filter (owned_by_patient (Sample.oid "u2")) (Sample.store Prescription)) /\
     returned = map (populate_all Sample.env Sample.store Prescription
                       [("doctorId", ["name"; "specialization"]); ("appointmentId", ["date"])])
                  selected /\
     StronglySorted by_date_desc returned /\
     getPatientPrescriptions Sample.env patient Sample.store =
       ({| status := 200;
           body := VObj [("count", VNum (Z.of_nat (List.length returned)));
                         ("prescriptions", VArr (map VObj returned))] |}, Sample.store)) /\
  (exists selected returned,
     Permutation selected
       (filter (written_by_doctor (Sample.oid "u1") (Sample.oid "u2"))
          (Sample.store Prescription)) /\
     returned = map (populate_all Sample.env Sample.store Prescription
                       [("patientId", ["name"]); ("appointmentId", ["date"])])
                  selected /\
     StronglySorted by_date_desc returned /\
     getDoctorPrescriptions Sample.env doctor Sample.store =
       ({| status := 200;
           body := VObj [("count", VNum (Z.of_nat (List.length returned)));
                         ("prescriptions", VArr (map VObj returned))] |}, Sample.store)).
Proof.
  cbv zeta. split.
  - apply (proj1 (C9_prescription_listings Sample.env
                    (Sample.request "u2" "patient" [] [] VUndef) Sample.store)).
    reflexivity.
  - apply (proj2 (C9_prescription_listings Sample.env
                    (Sample.request "u1" "doctor" []
                       [("patientId", "64b0000000000000000000u2")] VUndef) Sample.store)).
    reflexivity.
Defined.

Example patient_listing_sample :
  let r := fst (getPatientPrescriptions Sample.env
                  (Sample.request "u2" "patient" [] [] VUndef) Sample.store) in
  status r = 200 /\ prop (body r) "count" = Some (VNum 3) /\
  Sample.listed r = [Sample.oid "r2"; Sample.oid "r3"; Sample.oid "r1"].
Proof. cbv zeta. repeat split. Qed.

Example doctor_listing_sample :
  let all := fst (getDoctorPrescriptions Sample.env
                    (Sample.request "u1" "doctor" [] [] VUndef) Sample.store) in
  let one := fst (getDoctorPrescriptions Sample.env
                    (Sample.request "u1" "doctor" []
                       [("patientId", "64b0000000000000000000u2")] VUndef) Sample.store) in
  Sample.listed all = [Sample.oid "r4"; Sample.oid "r3"; Sample.oid "r1"] /\
  Sample.listed one = [Sample.oid "r3"; Sample.oid "r1"] /\
  prop (body one) "count" = Some (VNum 2).
Proof. cbv zeta. repeat split. Qed.

(** ** Reading one prescription *)

Lemma lookup_populate_other (E : Env) (db : Db) (m : Model) (path k : string)
    (select : list string) (d : Obj) :
  (path =? k) = false -> lookup k (populate E db m path select d) = lookup k d.
Proof.
  intros Hk. unfold populate.
  destruct (lookup path d); try reflexivity;
    destruct (find_first db (schema_ref E m path) _);
    now rewrite lookup_obj_set_other.
Qed.

Lemma lookup_populate_resolved (E : Env) (db : Db) (m : Model) (path : string)
    (select : list string) (d r : Obj) :
  lookup path d <> VUndef -> lookup path d <> VNull ->
  find_first db (schema_ref E m path) [("_id", lookup path d)] = Some r ->
  lookup path (populate E db m path select d) = VObj (select_in select r).
Proof.
  intros Hu Hn Hfound. unfold populate.
  destruct (lookup path d) eqn:Hpath; try congruence;
    rewrite Hfound; apply lookup_obj_set_same.
Qed.

(** C10: the single-prescription read is a function of the
    [prescriptionId] parameter and of the store alone: two requests with
    the same [prescriptionId] get the same response whoever the requesters
    are, and when the prescription is found and its doctor and patient
    references resolve, that response carries the doctor's [licenseNumber]
    and the patient's [dateOfBirth]. *)
Theorem C10_single_read_ignores_requester (E : Env) (db : Db) (req1 req2 : Request) :
  let prescriptionId := assoc "prescriptionId" (req_params req1) in
  assoc "prescriptionId" (req_params req2) = prescriptionId ->
  getPrescription E req1 db = getPrescription E req2 db /\
  (forall stored doctor patient,
     db_fault E db (CallFindById Prescription prescriptionId) = None ->
     find_first db Prescription [("_id", prescriptionId)] = Some stored ->
     lookup "doctorId" stored <> VUndef -> lookup "doctorId" stored <> VNull ->
     lookup "patientId" stored <> VUndef -> lookup "patientId" stored <> VNull ->
     find_first db (schema_ref E Prescription "doctorId")
       [("_id", lookup "doctorId" stored)] = Some doctor ->
     find_first db (schema_ref E Prescription "patientId")
       [("_id", lookup "patientId" stored)] = Some patient ->
     exists returned,
       getPrescription E req1 db = ({| status := 200; body := VObj returned |}, db) /\
       getPrescription E req2 db = ({| status := 200; body := VObj returned |}, db) /\
       prop (lookup "doctorId" returned) "licenseNumber" = Some (lookup "licenseNumber" doctor) /\
       prop (lookup "patientId" returned) "dateOfBirth" = Some (lookup "dateOfBirth" patient)).
Proof.
  cbv zeta. intros Hsame.
  assert (getPrescription E req1 db = getPrescription E req2 db) as Heq.
  { unfold getPrescription, getPrescription_body. now rewrite Hsame. }
  split; [exact Heq|].
  intros stored doctor patient Hfault Hfound Hdu Hdn Hpu Hpn Hdoctor Hpatient.
  assert (getPrescription E req1 db =
          ({| status := 200;
              body := VObj (populate_all E db Prescription
                              [("doctorId", ["name"; "specialization"; "licenseNumber"]);
                               ("patientId", ["name"; "dateOfBirth"; "gender"]);
                               ("appointmentId", ["date"; "reason"])] stored) |}, db)) as Hrun.
  { unfold getPrescription, getPrescription_body. run_handler.
    now rewrite Hfault, Hfound. }
  eexists. rewrite <- Heq.
  split; [exact Hrun|]. split; [exact Hrun|].
  - unfold populate_all. cbn [fold_left fst snd].
    set (withDoctor := populate E db Prescription "doctorId"
                         ["name"; "specialization"; "licenseNumber"] stored).
    set (withPatient := populate E db Prescription "patientId"
                          ["name"; "dateOfBirth"; "gender"] withDoctor).
    assert (lookup "doctorId" withDoctor =
            VObj (select_in ["name"; "specialization"; "licenseNumber"] doctor)) as Hd
      by (now apply lookup_populate_resolved).
    assert (lookup "patientId" withDoctor = lookup "patientId" stored) as Hp
      by (now apply lookup_populate_other).
    assert (lookup "patientId" withPatient =
            VObj (select_in ["name"; "dateOfBirth"; "gender"] patient)) as Hp'
      by (apply lookup_populate_resolved; rewrite Hp; assumption).
    split.
    + rewrite lookup_populate_other by reflexivity. unfold withPatient.
      rewrite lookup_populate_other by reflexivity. rewrite Hd.
      simpl. f_equal. apply lookup_select_in. simpl; auto.
    + rewrite lookup_populate_other, Hp' by reflexivity.
      simpl. f_equal. apply lookup_select_in. simpl; auto.
Qed.

Lemma C10_single_read_ignores_requester_witness :
  let asPatient := Sample.request "u2" "patient"
                     [("prescriptionId", "64b0000000000000000000r5")] [] VUndef in
  let asStranger := Sample.request "u3" "doctor"
                      [("prescriptionId", "64b0000000000000000000r5")] [] VUndef in
  getPrescription Sample.env asPatient Sample.store =
  getPrescription Sample.env asStranger Sample.store /\
  exists returned,
    getPrescription Sample.env asPatient Sample.store =
      ({| status := 200; body := VObj returned |}, Sample.store) /\
    getPrescription Sample.env asStranger Sample.store =
      ({| status := 200; body := VObj returned |}, Sample.store) /\
    prop (lookup "doctorId" returned) "licenseNumber" = Some (VStr "LIC-0001") /\
    prop (lookup "patientId" returned) "dateOfBirth" = Some (VNum 631152000000).
Proof.
  cbv zeta.
  destruct (C10_single_read_ignores_requester Sample.env Sample.store
              (Sample.request "u2" "patient"
                 [("prescriptionId", "64b0000000000000000000r5")] [] VUndef)
              (Sample.request "u3" "doctor"
                 [("prescriptionId", "64b0000000000000000000r5")] [] VUndef)
              eq_refl) as [Hsame Hfields].
  split; [exact Hsame|].
  apply (Hfields (Sample.rx "r5" "d1" "p1" 50) Sample.doctor1 Sample.patient1);
    try reflexivity; discriminate.
Defined.

(** ** Creating a prescription: the other outcomes *)

Ltac reduce := cbv beta iota zeta.

Lemma prop_body_field (req : Request) (k : string) (v : JsVal) :
  prop (req_body req) k = Some v ->
  forall k', prop (req_body req) k' = Some (body_field req k').
Proof.
  intros H k'. unfold body_field.
  destruct (prop_total _ _ k' _ H) as [y ->]. reflexivity.
Qed.

Lemma invalid_from_valid (meds : list JsVal) :
  Forall (fun med => entry_invalid med = false) meds ->
  forall index, invalid_from index meds = [].
Proof.
  induction 1 as [|med rest Hmed _ IH]; intros index; simpl; [reflexivity|].
  now rewrite Hmed.
Qed.

Lemma no_medications_nonempty (meds : list JsVal) :
  meds <> [] -> no_medications (VArr meds) = false.
Proof. destruct meds; [congruence | reflexivity]. Qed.

(** X1: a create-prescription request with an [appointmentId] and a
    non-empty list of complete medication entries, for an appointment found
    for the requester, on a store that does not fail, is answered 201 with
    the new prescription; the prescription, which carries a fresh [_id], the
    submitted medications and the [appointmentId], is appended to the
    store, and the appointment is written back with its [prescriptionId]. *)
Theorem createPrescription_succeeds (E : Env) (req : Request) (db : Db)
    (meds : list JsVal) (appointment : Obj) :
  (forall d c, db_fault E d c = None) ->
  prop (req_body req) "medications" = Some (VArr meds) ->
  truthy (assoc "appointmentId" (req_params req)) = true ->
  meds <> [] ->
  Forall (fun med => med <> VUndef /\ med <> VNull) meds ->
  Forall (fun med => entry_invalid med = false) meds ->
  find_first db Appointment (appointment_query req) = Some appointment ->
  exists prescription,
    createPrescription E req db =
      ({| status := 201;
          body := VObj [("message", VStr "Prescription created successfully");
                        ("prescription", VObj prescription)] |},
       replace_doc (insert_doc db Prescription prescription) Appointment
         (obj_set "prescriptionId" (lookup "_id" prescription) appointment)) /\
    lookup "_id" prescription = new_ObjectId E db /\
    lookup "medications" prescription = VArr meds /\
    lookup "appointmentId" prescription = assoc "appointmentId" (req_params req).
Proof.
  intros Hstore Hbody Hid Hne Hobj Hvalid Hfound.
  pose proof (prop_body_field req _ _ Hbody) as Hprop.
  assert (body_field req "medications" = VArr meds) as Hmeds
    by (unfold body_field; now rewrite Hbody).
  unfold appointment_query in Hfound.
  unfold createPrescription, createPrescription_body. run_handler. reduce.
  rewrite !Hprop. reduce. rewrite Hmeds, Hid, (no_medications_nonempty meds Hne).
  cbn [negb orb]. reduce. rewrite Hstore, Hfound. reduce.
  unfold validate_medications.
  rewrite (medications_forEach_invalid_from meds Hobj 0 []), (invalid_from_valid meds Hvalid).
  cbn [map app List.length Nat.ltb Nat.leb]. reduce. rewrite !Hstore. reduce.
  eexists. split; [reflexivity|].
  split; [apply lookup_obj_set_same|].
  rewrite !lookup_obj_set_other by reflexivity.
  repeat rewrite lookup_defined_fields_cons. simpl.
  split.
  - destruct (is_undef (assoc "appointmentId" (req_params req)));
      destruct (is_undef (lookup "userId" (req_user req)));
      destruct (is_undef (lookup "patientId" appointment));
      destruct (is_undef (body_field req "diagnosis")); reflexivity.
  - destruct (assoc "appointmentId" (req_params req)); try discriminate; reflexivity.
Qed.

Lemma createPrescription_succeeds_witness :
  exists prescription,
    createPrescription Sample.env Scenario.valid_request Sample.store =
      ({| status := 201;
          body := VObj [("message", VStr "Prescription created successfully");
                        ("prescription", VObj prescription)] |},
       replace_doc (insert_doc Sample.store Prescription prescription) Appointment
         (obj_set "prescriptionId" (lookup "_id" prescription) Sample.appointment1)) /\
    lookup "_id" prescription = new_ObjectId Sample.env Sample.store /\
    lookup "medications" prescription = VArr [Sample.med "Ibuprofen" "200mg"] /\
    lookup "appointmentId" prescription = VStr Sample.a1.
Proof.
  apply (createPrescription_succeeds Sample.env Scenario.valid_request Sample.store
           [Sample.med "Ibuprofen" "200mg"] Sample.appointment1);
    try reflexivity; try discriminate.
  - repeat constructor; discriminate.
  - repeat constructor.
Defined.

(** The prescription-side facts shared by the outcomes after validation. *)
Lemma createPrescription_validated (E : Env) (req : Request) (db : Db)
    (meds : list JsVal) (appointment : Obj) :
  prop (req_body req) "medications" = Some (VArr meds) ->
  truthy (assoc "appointmentId" (req_params req)) = true ->
  meds <> [] ->
  Forall (fun med => med <> VUndef /\ med <> VNull) meds ->
  Forall (fun med => entry_invalid med = false) meds ->
  db_fault E db (CallFindOne Appointment (appointment_query req)) = None ->
  find_first db Appointment (appointment_query req) = Some appointment ->
  exists prescription,
    lookup "_id" prescription = new_ObjectId E db /\
    lookup "appointmentId" prescription = assoc "appointmentId" (req_params req) /\
    lookup "medications" prescription = VArr meds /\
    createPrescription E req db =
      try_catch
        (save_new E Prescription prescription ;;;
         save_existing E Appointment
           (obj_set "prescriptionId" (lookup "_id" prescription) appointment) ;;;
         respond 201 (VObj [("message", VStr "Prescription created successfully");
                            ("prescription", VObj prescription)]))
        (catch_write E "Failed to create prescription") db.
Proof.
  intros Hbody Hid Hne Hobj Hvalid Hfault Hfound.
  pose proof (prop_body_field req _ _ Hbody) as Hprop.
  assert (body_field req "medications" = VArr meds) as Hmeds
    by (unfold body_field; now rewrite Hbody).
  unfold appointment_query in Hfound, Hfault.
  unfold createPrescription, createPrescription_body. run_handler. reduce.
  rewrite !Hprop. reduce. rewrite Hmeds, Hid, (no_medications_nonempty meds Hne).
  cbn [negb orb]. reduce. rewrite Hfault, Hfound. reduce.
  unfold validate_medications.
  rewrite (medications_forEach_invalid_from meds Hobj 0 []), (invalid_from_valid meds Hvalid).
  cbn [map app List.length Nat.ltb Nat.leb]. reduce.
  eexists. split; [apply lookup_obj_set_same|]. split; [|split; [|reflexivity]].
  - rewrite !lookup_obj_set_other by reflexivity.
    repeat rewrite lookup_defined_fields_cons. simpl.
    destruct (assoc "appointmentId" (req_params req)); try discriminate; reflexivity.
  - rewrite !lookup_obj_set_other by reflexivity.
    repeat rewrite lookup_defined_fields_cons. simpl.
    destruct (is_undef (assoc "appointmentId" (req_params req)));
      destruct (is_undef (lookup "userId" (req_user req)));
      destruct (is_undef (lookup "patientId" appointment));
      destruct (is_undef (body_field req "diagnosis")); reflexivity.
Qed.

(** X2: the two writes of a creation are not atomic.  When the store
    accepts the prescription but fails on the appointment, the request is
    answered by the [catch] block (400 or 500, never 201), the prescription
    stays in the store, and the appointments are as they were: none refers
    to it. *)
Theorem createPrescription_partial_write (E : Env) (req : Request) (db : Db)
    (meds : list JsVal) (appointment : Obj) (e : JsError) :
  prop (req_body req) "medications" = Some (VArr meds) ->
  truthy (assoc "appointmentId" (req_params req)) = true ->
  meds <> [] ->
  Forall (fun med => med <> VUndef /\ med <> VNull) meds ->
  Forall (fun med => entry_invalid med = false) meds ->
  db_fault E db (CallFindOne Appointment (appointment_query req)) = None ->
  find_first db Appointment (appointment_query req) = Some appointment ->
  (forall d p, db_fault E d (CallSave Prescription p) = None) ->
  (forall d a, db_fault E d (CallSave Appointment a) = Some e) ->
  exists prescription,
    lookup "appointmentId" prescription = assoc "appointmentId" (req_params req) /\
    fst (createPrescription E req db) = catch_write E "Failed to create prescription" e /\
    status (fst (createPrescription E req db)) <> 201 /\
    snd (createPrescription E req db) Prescription = (db Prescription ++ [prescription])%list /\
    snd (createPrescription E req db) Appointment = db Appointment.
Proof.
  intros Hbody Hid Hne Hobj Hvalid Hfault Hfound Hsave Hlink.
  destruct (createPrescription_validated E req db meds appointment
              Hbody Hid Hne Hobj Hvalid Hfault Hfound) as (prescription & _ & Ha & _ & ->).
  exists prescription. split; [exact Ha|].
  run_handler. rewrite Hsave, Hlink. cbn [fst snd].
  split; [reflexivity|]. split; [|split; reflexivity].
  unfold catch_write. destruct (err_name e =? "ValidationError"); discriminate.
Qed.

Lemma createPrescription_partial_write_witness :
  let E := Scenario.deployment (Scenario.writes_fail Appointment Scenario.timeout)
             "production" Scenario.upload_ok in
  exists prescription,
    lookup "appointmentId" prescription = VStr Sample.a1 /\
    fst (createPrescription E Scenario.valid_request Sample.store) =
      catch_write E "Failed to create prescription" Scenario.timeout /\
    status (fst (createPrescription E Scenario.valid_request Sample.store)) <> 201 /\
    snd (createPrescription E Scenario.valid_request Sample.store) Prescription =
      (Sample.store Prescription ++ [prescription])%list /\
    snd (createPrescription E Scenario.valid_request Sample.store) Appointment =
      Sample.store Appointment.
Proof.
  cbv zeta.
  apply (createPrescription_partial_write
           (Scenario.deployment (Scenario.writes_fail Appointment Scenario.timeout)
              "production" Scenario.upload_ok)
           Scenario.valid_request Sample.store
           [Sample.med "Ibuprofen" "200mg"] Sample.appointment1 Scenario.timeout);
    try reflexivity; try discriminate.
  - repeat constructor; discriminate.
  - repeat constructor.
Defined.

(** X3: when the store refuses the new prescription, nothing is written.
    A schema validation error is answered 400 with the validators' messages;
    any other failure is answered 500, and the failure's own message is
    passed on only in a development environment. *)
Theorem createPrescription_save_refused (E : Env) (req : Request) (db : Db)
    (meds : list JsVal) (appointment : Obj) (e : JsError) :
  prop (req_body req) "medications" = Some (VArr meds) ->
  truthy (assoc "appointmentId" (req_params req)) = true ->
  meds <> [] ->
  Forall (fun med => med <> VUndef /\ med <> VNull) meds ->
  Forall (fun med => entry_invalid med = false) meds ->
  db_fault E db (CallFindOne Appointment (appointment_query req)) = None ->
  find_first db Appointment (appointment_query req) = Some appointment ->
  (forall d p, db_fault E d (CallSave Prescription p) = Some e) ->
  snd (createPrescription E req db) = db /\
  (err_name e = "ValidationError" ->
     fst (createPrescription E req db) =
       {| status := 400;
          body := VObj [("message", VStr "Validation error");
                        ("errors", VArr (map (fun pm => VStr (snd pm)) (err_errors e)))] |}) /\
  (err_name e <> "ValidationError" ->
     fst (createPrescription E req db) =
       {| status := 500;
          body := VObj [("message", VStr "Failed to create prescription");
                        ("error", if NODE_ENV E =? "development"
                                  then VStr (err_message e) else VUndef)] |}).
Proof.
  intros Hbody Hid Hne Hobj Hvalid Hfault Hfound Hsave.
  destruct (createPrescription_validated E req db meds appointment
              Hbody Hid Hne Hobj Hvalid Hfault Hfound) as (prescription & _ & _ & _ & ->).
  run_handler. rewrite Hsave. cbn [fst snd].
  split; [reflexivity|]. unfold catch_write, dev_message. split.
  - intros ->. reflexivity.
  - intros Hname. apply String.eqb_neq in Hname. now rewrite Hname.
Qed.

Lemma createPrescription_save_refused_witness :
  let refusing := Scenario.deployment (Scenario.writes_fail Prescription Scenario.refused)
                    "production" Scenario.upload_ok in
  let down := Scenario.deployment (Scenario.writes_fail Prescription Scenario.timeout)
                "development" Scenario.upload_ok in
  createPrescription refusing Scenario.valid_request Sample.store =
    ({| status := 400;
        body := VObj [("message", VStr "Validation error");
                      ("errors", VArr [VStr "Diagnosis is too long";
                                       VStr "Notes are too long"])] |}, Sample.store) /\
  createPrescription down Scenario.valid_request Sample.store =
    ({| status := 500;
        body := VObj [("message", VStr "Failed to create prescription");
                      ("error", VStr "connection timed out")] |}, Sample.store).
Proof.
  cbv zeta.
  assert ([Sample.med "Ibuprofen" "200mg"] <> []) as Hne by discriminate.
  assert (Forall (fun med => med <> VUndef /\ med <> VNull) [Sample.med "Ibuprofen" "200mg"])
    as Hobj by (repeat constructor; discriminate).
  assert (Forall (fun med => entry_invalid med = false) [Sample.med "Ibuprofen" "200mg"])
    as Hvalid by (repeat constructor).
  split.
  - destruct (createPrescription_save_refused
                (Scenario.deployment (Scenario.writes_fail Prescription Scenario.refused)
                   "production" Scenario.upload_ok)
                Scenario.valid_request Sample.store
                [Sample.med "Ibuprofen" "200mg"] Sample.appointment1 Scenario.refused
                eq_refl eq_refl Hne Hobj Hvalid eq_refl eq_refl (fun _ _ => eq_refl))
      as (Hdb & Hrefused & _).
    rewrite (surjective_pairing (createPrescription _ _ _)), Hdb, Hrefused; reflexivity.
  - destruct (createPrescription_save_refused
                (Scenario.deployment (Scenario.writes_fail Prescription Scenario.timeout)
                   "development" Scenario.upload_ok)
                Scenario.valid_request Sample.store
                [Sample.med "Ibuprofen" "200mg"] Sample.appointment1 Scenario.timeout
                eq_refl eq_refl Hne Hobj Hvalid eq_refl eq_refl (fun _ _ => eq_refl))
      as (Hdb & _ & Hother).
    rewrite (surjective_pairing (createPrescription _ _ _)), Hdb, Hother;
      [reflexivity | discriminate].
Defined.

Lemma prescription_frame_refl (db : Db) : prescription_frame db db.
Proof. repeat split; auto. Qed.

Lemma replace_doc_ids (db : Db) (m : Model) (d : Obj) :
  map (lookup "_id") (replace_doc db m d m) = map (lookup "_id") (db m).
Proof.
  unfold replace_doc, set_collection.
  replace (Model_eqb m m) with true by (now destruct m).
  rewrite map_map. apply map_ext. intros d'.
  destruct (jsval_eqb (lookup "_id" d') (lookup "_id" d)) eqn:Hid; [|reflexivity].
  symmetry. now apply jsval_eqb_eq.
Qed.

Lemma prescription_frame_insert (db : Db) (p : Obj) :
  prescription_frame db (insert_doc db Prescription p).
Proof.
  unfold prescription_frame, insert_doc, set_collection. repeat split.
  - intros m Hp Ha. destruct m; solve [reflexivity | now elim Hp | now elim Ha].
  - right. exists p. reflexivity.
Qed.

Lemma prescription_frame_replace (db : Db) (p a : Obj) :
  prescription_frame db (replace_doc (insert_doc db Prescription p) Appointment a).
Proof.
  unfold prescription_frame. repeat split.
  - intros m Hp Ha. destruct m; solve [reflexivity | now elim Hp | now elim Ha].
  - right. exists p. reflexivity.
  - now rewrite replace_doc_ids.
Qed.

(** X4: whatever the request and the outcome, creating a prescription
    changes nothing in the store or appends exactly one prescription; it
    never touches the users, profiles and clinics, and never adds, removes
    or re-identifies an appointment. *)
Theorem createPrescription_store_frame (E : Env) (req : Request) (db : Db) :
  prescription_frame db (snd (createPrescription E req db)).
Proof.
  destruct (createPrescription E req db) as [r db'] eqn:Hrun. cbn [snd].
  unfold createPrescription, createPrescription_body in Hrun. run_handler_in Hrun.
  unfold catch_write in Hrun.
  repeat (step Hrun;
          try (apply pair_equal_spec in Hrun as [_ <-]; apply prescription_frame_refl)).
  all: apply pair_equal_spec in Hrun as [_ <-].
  all: auto using prescription_frame_refl, prescription_frame_insert,
         prescription_frame_replace.
Qed.

Lemma medications_forEach_null (meds : list JsVal) :
  In VNull meds -> forall index acc, medications_forEach index meds acc = None.
Proof.
  induction meds as [|med rest IH]; intros Hin index acc; [destruct Hin|].
  simpl. destruct Hin as [-> | Hin]; [reflexivity|].
  destruct (med_incomplete med) as [[|]|]; auto.
Qed.

(** X5: a create-prescription request without a body is answered 500 and
    writes nothing: the destructuring of the body throws before any check. *)
Theorem createPrescription_without_body (E : Env) (req : Request) (db : Db) :
  req_body req = VUndef \/ req_body req = VNull ->
  status (fst (createPrescription E req db)) = 500 /\
  prop (body (fst (createPrescription E req db))) "message" =
    Some (VStr "Failed to create prescription") /\
  snd (createPrescription E req db) = db.
Proof.
  intros Hbody. unfold createPrescription, createPrescription_body. run_handler.
  destruct Hbody as [-> | ->]; repeat split.
Qed.

Lemma createPrescription_without_body_witness :
  let req := Sample.request "u1" "doctor" [("appointmentId", Sample.a1)] [] VUndef in
  status (fst (createPrescription Sample.env req Sample.store)) = 500 /\
  prop (body (fst (createPrescription Sample.env req Sample.store))) "message" =
    Some (VStr "Failed to create prescription") /\
  snd (createPrescription Sample.env req Sample.store) = Sample.store.
Proof.
  cbv zeta. apply (createPrescription_without_body Sample.env). now left.
Defined.

(** X6: a [null] entry in the medication list aborts the validation: with
    the appointment found, the request is answered 500 instead of the list
    of per-entry errors, whatever the other entries are, and nothing is
    written. *)
Theorem createPrescription_null_entry (E : Env) (req : Request) (db : Db)
    (meds : list JsVal) (appointment : Obj) :
  prop (req_body req) "medications" = Some (VArr meds) ->
  truthy (assoc "appointmentId" (req_params req)) = true ->
  In VNull meds ->
  db_fault E db (CallFindOne Appointment (appointment_query req)) = None ->
  find_first db Appointment (appointment_query req) = Some appointment ->
  status (fst (createPrescription E req db)) = 500 /\
  prop (body (fst (createPrescription E req db))) "message" =
    Some (VStr "Failed to create prescription") /\
  snd (createPrescription E req db) = db.
Proof.
  intros Hbody Hid Hnull Hfault Hfound.
  pose proof (prop_body_field req _ _ Hbody) as Hprop.
  assert (body_field req "medications" = VArr meds) as Hmeds
    by (unfold body_field; now rewrite Hbody).
  assert (meds <> []) as Hne by (intros ->; destruct Hnull).
  unfold appointment_query in Hfound, Hfault.
  unfold createPrescription, createPrescription_body. run_handler. reduce.
  rewrite !Hprop. reduce. rewrite Hmeds, Hid, (no_medications_nonempty meds Hne).
  cbn [negb orb]. reduce. rewrite Hfault, Hfound. reduce.
  unfold validate_medications. rewrite (medications_forEach_null meds Hnull).
  repeat split.
Qed.

Lemma createPrescription_null_entry_witness :
  let req := Sample.request "u1" "doctor" [("appointmentId", Sample.a1)] []
               (VObj [("medications",
                       VArr [VObj [("name", VStr "Aspirin")]; VNull])]) in
  status (fst (createPrescription Sample.env req Sample.store)) = 500 /\
  prop (body (fst (createPrescription Sample.env req Sample.store))) "message" =
    Some (VStr "Failed to create prescription") /\
  snd (createPrescription Sample.env req Sample.store) = Sample.store.
Proof.
  cbv zeta.
  apply (createPrescription_null_entry Sample.env _ Sample.store
           [VObj [("name", VStr "Aspirin")]; VNull] Sample.appointment1);
    try reflexivity.
  right. now left.
Defined.

(** ** Reading: the other outcomes *)

Lemma has_key_filter_false (keep : string * JsVal -> bool) (k : string) (o : Obj) :
  has_key k o = false -> has_key k (filter keep o) = false.
Proof.
  induction o as [|[k' v] o IH]; simpl; [reflexivity|].
  intros H. apply orb_false_elim in H as [Hk Ho].
  destruct (keep (k', v)); simpl; [rewrite Hk|]; auto.
Qed.

Lemma has_key_obj_remove_same (k : string) (o : Obj) : has_key k (obj_remove k o) = false.
Proof.
  unfold obj_remove. induction o as [|[k' v] o IH]; simpl; [reflexivity|].
  destruct (k' =? k) eqn:Hk; simpl; [exact IH | now rewrite Hk].
Qed.

Lemma has_key_select_out_kept (ks : list string) (k : string) (d : Obj) :
  has_key k d = false -> has_key k (select_out ks d) = false.
Proof.
  unfold select_out. revert d. induction ks as [|k' ks IH]; intros d H; simpl; [exact H|].
  apply IH. now apply has_key_filter_false.
Qed.

Lemma has_key_select_out (ks : list string) (k : string) (d : Obj) :
  In k ks -> has_key k (select_out ks d) = false.
Proof.
  unfold select_out. revert d. induction ks as [|k' ks IH]; intros d Hin; [destruct Hin|].
  simpl. destruct Hin as [-> | Hin]; [|now apply IH].
  apply (has_key_select_out_kept ks). apply has_key_obj_remove_same.
Qed.

Lemma has_key_obj_set_other (k k' : string) (v : JsVal) (o : Obj) :
  (k' =? k) = false -> has_key k (obj_set k' v o) = has_key k o.
Proof.
  intros Hk. induction o as [|[k'' v''] o IH]; simpl.
  - now rewrite Hk.
  - destruct (k'' =? k') eqn:Hk'; simpl; [|now rewrite IH].
    apply String.eqb_eq in Hk'; subst k''. now rewrite Hk.
Qed.

Lemma has_key_populate_other (E : Env) (db : Db) (m : Model) (path k : string)
    (select : list string) (d : Obj) :
  (path =? k) = false -> has_key k (populate E db m path select d) = has_key k d.
Proof.
  intros Hk. unfold populate.
  destruct (lookup path d); try reflexivity;
    destruct (find_first db (schema_ref E m path) _);
    now rewrite has_key_obj_set_other.
Qed.

Lemma has_key_populate_all_other (E : Env) (db : Db) (m : Model)
    (paths : list (string * list string)) (k : string) (d : Obj) :
  forallb (fun ps => negb (fst ps =? k)) paths = true ->
  has_key k (populate_all E db m paths d) = has_key k d.
Proof.
  unfold populate_all. revert d.
  induction paths as [|[path select] paths IH]; intros d Hpaths; simpl in *; [reflexivity|].
  apply andb_prop in Hpaths as [Hpath Hrest].
  rewrite IH by exact Hrest.
  apply has_key_populate_other. now apply negb_true_iff.
Qed.

Lemma has_key_select_in (ks : list string) (k : string) (r : Obj) :
  has_key k (select_in ks r) = true -> k = "_id" \/ In k ks.
Proof.
  unfold select_in. induction r as [|[k' v] r IH]; simpl; [discriminate|].
  destruct ((k' =? "_id") || existsb (String.eqb k') ks) eqn:Hkeep; simpl; [|exact IH].
  destruct (k' =? k) eqn:Hk; simpl; [|exact IH].
  intros _. apply String.eqb_eq in Hk; subst k'.
  apply orb_prop in Hkeep as [Hid | Hin].
  - left. now apply String.eqb_eq.
  - right. apply existsb_exists in Hin as (x & Hx & Hkx).
    apply String.eqb_eq in Hkx. now subst x.
Qed.

Lemma find_docs_none (db : Db) (m : Model) (q : Obj) :
  (forall d, In d (db m) -> matches q d = false) -> find_docs db m q = [].
Proof.
  unfold find_docs. induction (db m) as [|d l IH]; intros Hall; simpl; [reflexivity|].
  rewrite (Hall d) by now left. apply IH. intros d' Hd'. apply Hall. now right.
Qed.

Lemma jsval_eqb_neq (a b : JsVal) : a <> b -> jsval_eqb a b = false.
Proof.
  intros Hne. destruct (jsval_eqb a b) eqn:H; [|reflexivity].
  now apply jsval_eqb_eq in H.
Qed.

(** X7: a listing that selects nothing is an ordinary answer: a patient
    without prescriptions, or a doctor who wrote none, gets 200 with a
    count of 0 and an empty list (where a clinic without doctors gets 404). *)
Theorem empty_listing_is_200 (E : Env) (req : Request) (db : Db) :
  let userId := lookup "userId" (req_user req) in
  let patientId := assoc "patientId" (req_query req) in
  let empty := {| status := 200;
                  body := VObj [("count", VNum 0); ("prescriptions", VArr [])] |} in
  (db_fault E db (CallFind Prescription [("patientId", userId)]) = None ->
   (forall d, In d (db Prescription) -> lookup "patientId" d <> userId) ->
   getPatientPrescriptions E req db = (empty, db)) /\
  (db_fault E db (CallFind Prescription (doctor_query userId patientId)) = None ->
   (forall d, In d (db Prescription) -> lookup "doctorId" d <> userId) ->
   getDoctorPrescriptions E req db = (empty, db)).
Proof.
  cbv zeta. split; intros Hfault Hnone.
  - unfold getPatientPrescriptions, getPatientPrescriptions_body. run_handler.
    rewrite Hfault, find_docs_none; [reflexivity|].
    intros d Hd. unfold matches. simpl. now rewrite jsval_eqb_neq by auto.
  - unfold getDoctorPrescriptions, getDoctorPrescriptions_body. run_handler.
    rewrite Hfault, find_docs_none; [reflexivity|].
    intros d Hd. unfold matches, doctor_query.
    destruct (truthy (assoc "patientId" (req_query req))); simpl;
      now rewrite jsval_eqb_neq by auto.
Qed.

Lemma empty_listing_is_200_witness :
  let empty := {| status := 200;
                  body := VObj [("count", VNum 0); ("prescriptions", VArr [])] |} in
  getPatientPrescriptions Sample.env (Sample.request "u7" "patient" [] [] VUndef) Sample.store =
    (empty, Sample.store) /\
  getDoctorPrescriptions Sample.env (Sample.request "u7" "doctor" [] [] VUndef) Sample.store =
    (empty, Sample.store).
Proof.
  cbv zeta.
  assert (forall k d, In d (Sample.store Prescription) ->
            (k = "patientId" \/ k = "doctorId") -> lookup k d <> Sample.oid "u7") as Hnone.
  { intros k d Hd Hk. simpl in Hd.
    repeat (destruct Hd as [<- | Hd]; [destruct Hk as [-> | ->]; discriminate|]).
    destruct Hd. }
  split.
  - apply (proj1 (empty_listing_is_200 Sample.env
                    (Sample.request "u7" "patient" [] [] VUndef) Sample.store));
      [reflexivity | intros d Hd; apply Hnone; auto].
  - apply (proj2 (empty_listing_is_200 Sample.env
                    (Sample.request "u7" "doctor" [] [] VUndef) Sample.store));
      [reflexivity | intros d Hd; apply Hnone; auto].
Defined.

(** X8: the single read answers 404 when the store has no prescription
    with the given id, and 500 when the store fails, passing the failure's
    message on only in a development environment; the store is not
    changed. *)
Theorem getPrescription_not_found_or_failed (E : Env) (req : Request) (db : Db) :
  let prescriptionId := assoc "prescriptionId" (req_params req) in
  (db_fault E db (CallFindById Prescription prescriptionId) = None ->
   (forall d, In d (db Prescription) -> lookup "_id" d <> prescriptionId) ->
   getPrescription E req db =
     ({| status := 404; body := VObj [("message", VStr "Prescription not found")] |}, db)) /\
  (forall e,
     db_fault E db (CallFindById Prescription prescriptionId) = Some e ->
     getPrescription E req db =
       ({| status := 500;
           body := VObj [("message", VStr "Failed to fetch prescription");
                         ("error", if NODE_ENV E =? "development"
                                   then VStr (err_message e) else VUndef)] |}, db)).
Proof.
  cbv zeta. split.
  - intros Hfault Hnone.
    unfold getPrescription, getPrescription_body. run_handler.
    rewrite Hfault. unfold find_first. rewrite find_docs_none; [reflexivity|].
    intros d Hd. unfold matches. simpl. now rewrite jsval_eqb_neq by auto.
  - intros e Hfault.
    unfold getPrescription, getPrescription_body. run_handler.
    now rewrite Hfault.
Qed.

Lemma getPrescription_not_found_or_failed_witness :
  let req := Sample.request "u2" "patient"
               [("prescriptionId", "64b0000000000000000000r9")] [] VUndef in
  getPrescription Sample.env req Sample.store =
    ({| status := 404; body := VObj [("message", VStr "Prescription not found")] |},
     Sample.store) /\
  getPrescription (Scenario.deployment Scenario.store_down "production" Scenario.upload_ok)
    req Sample.store =
    ({| status := 500;
        body := VObj [("message", VStr "Failed to fetch prescription");
                      ("error", VUndef)] |}, Sample.store) /\
  getPrescription (Scenario.deployment Scenario.store_down "development" Scenario.upload_ok)
    req Sample.store =
    ({| status := 500;
        body := VObj [("message", VStr "Failed to fetch prescription");
                      ("error", VStr "connection timed out")] |}, Sample.store).
Proof.
  cbv zeta. split; [|split].
  - apply (proj1 (getPrescription_not_found_or_failed Sample.env
                    (Sample.request "u2" "patient"
                       [("prescriptionId", "64b0000000000000000000r9")] [] VUndef)
                    Sample.store)); [reflexivity|].
    intros d Hd. simpl in Hd.
    repeat (destruct Hd as [<- | Hd]; [discriminate|]). destruct Hd.
  - apply (proj2 (getPrescription_not_found_or_failed
                    (Scenario.deployment Scenario.store_down "production" Scenario.upload_ok)
                    (Sample.request "u2" "patient"
                       [("prescriptionId", "64b0000000000000000000r9")] [] VUndef)
                    Sample.store) Scenario.timeout). reflexivity.
  - apply (proj2 (getPrescription_not_found_or_failed
                    (Scenario.deployment Scenario.store_down "development" Scenario.upload_ok)
                    (Sample.request "u2" "patient"
                       [("prescriptionId", "64b0000000000000000000r9")] [] VUndef)
                    Sample.store) Scenario.timeout). reflexivity.
Defined.

Lemma find_first_appended (q d : Obj) (docs : list Obj) :
  (forall d', In d' docs -> matches q d' = false) ->
  matches q d = true ->
  hd_error (filter (matches q) (docs ++ [d])) = Some d.
Proof.
  intros Hnone Hd. rewrite filter_app.
  replace (filter (matches q) docs) with (@nil Obj).
  - simpl. now rewrite Hd.
  - symmetry. induction docs as [|d' l IH]; simpl; [reflexivity|].
    rewrite (Hnone d') by now left. apply IH. intros x Hx. apply Hnone. now right.
Qed.

(** X9: what is created can be read back.  After a successful creation
    whose fresh [_id] is not the [_id] of a prescription already stored,
    the single read with that id answers 200 with the prescription: the
    same [_id], the submitted medications. *)
Theorem created_prescription_is_readable (E : Env) (req reader : Request) (db : Db)
    (meds : list JsVal) (appointment : Obj) (id : string) :
  (forall d c, db_fault E d c = None) ->
  prop (req_body req) "medications" = Some (VArr meds) ->
  truthy (assoc "appointmentId" (req_params req)) = true ->
  meds <> [] ->
  Forall (fun med => med <> VUndef /\ med <> VNull) meds ->
  Forall (fun med => entry_invalid med = false) meds ->
  find_first db Appointment (appointment_query req) = Some appointment ->
  new_ObjectId E db = VStr id ->
  (forall d, In d (db Prescription) -> lookup "_id" d <> VStr id) ->
  assoc "prescriptionId" (req_params reader) = VStr id ->
  let db' := snd (createPrescription E req db) in
  exists returned,
    getPrescription E reader db' = ({| status := 200; body := VObj returned |}, db') /\
    lookup "_id" returned = VStr id /\
    lookup "medications" returned = VArr meds.
Proof.
  intros Hstore Hbody Hid Hne Hobj Hvalid Hfound Hnew Hfresh Hreader.
  destruct (createPrescription_validated E req db meds appointment
              Hbody Hid Hne Hobj Hvalid (Hstore _ _) Hfound)
    as (prescription & Hpid & _ & Hmeds & ->).
  rewrite Hnew in Hpid.
  run_handler. rewrite !Hstore. cbv zeta. cbn [snd].
  set (db' := replace_doc (insert_doc db Prescription prescription) Appointment _).
  assert (find_first db' Prescription [("_id", VStr id)] = Some prescription) as Hread.
  { unfold find_first, find_docs.
    change (db' Prescription) with (db Prescription ++ [prescription])%list.
    apply find_first_appended.
    - intros d Hd. unfold matches. simpl. now rewrite jsval_eqb_neq by auto.
    - unfold matches. simpl. now rewrite Hpid, jsval_eqb_refl. }
  unfold getPrescription, getPrescription_body. run_handler.
  rewrite Hreader, Hstore, Hread. cbn [option_map]. reduce.
  eexists. split; [reflexivity|].
  unfold populate_all. cbn [fold_left fst snd].
  now rewrite !lookup_populate_other by reflexivity.
Qed.

Lemma created_prescription_is_readable_witness :
  let db' := snd (createPrescription Sample.env Scenario.valid_request Sample.store) in
  exists returned,
    getPrescription Sample.env
      (Sample.request "u2" "patient" [("prescriptionId", "64b0000000000000000000n6")] [] VUndef)
      db' = ({| status := 200; body := VObj returned |}, db') /\
    lookup "_id" returned = VStr "64b0000000000000000000n6" /\
    lookup "medications" returned = VArr [Sample.med "Ibuprofen" "200mg"].
Proof.
  apply (created_prescription_is_readable Sample.env Scenario.valid_request
           (Sample.request "u2" "patient" [("prescriptionId", "64b0000000000000000000n6")]
              [] VUndef)
           Sample.store [Sample.med "Ibuprofen" "200mg"] Sample.appointment1
           "64b0000000000000000000n6");
    try reflexivity; try discriminate.
  - repeat constructor; discriminate.
  - repeat constructor.
  - intros d Hd. simpl in Hd.
    repeat (destruct Hd as [<- | Hd]; [discriminate|]). destruct Hd.
Defined.

(** X10: a get-doctors-by-clinic request whose [clinicId] is not a
    well-formed object id is answered 400 without the store being asked:
    the answer does not depend on the store nor on its failures. *)
Theorem getDoctorsByClinic_malformed_id (E : Env) (req : Request) (db : Db) :
  ObjectId_isValid E (assoc "clinicId" (req_params req)) = false ->
  getDoctorsByClinic E req db =
    ({| status := 400; body := VObj [("message", VStr "Invalid clinic ID format")] |}, db).
Proof.
  intros Hid. unfold getDoctorsByClinic, getDoctorsByClinic_body. run_handler.
  now rewrite Hid.
Qed.

Lemma getDoctorsByClinic_malformed_id_witness :
  getDoctorsByClinic (Scenario.deployment Scenario.store_down "production" Scenario.upload_ok)
    (Sample.request "u2" "patient" [("clinicId", "central")] [] VUndef) Sample.store =
  ({| status := 400; body := VObj [("message", VStr "Invalid clinic ID format")] |},
   Sample.store).
Proof.
  apply (getDoctorsByClinic_malformed_id
           (Scenario.deployment Scenario.store_down "production" Scenario.upload_ok)).
  reflexivity.
Defined.

(** X11: the doctors listed for a clinic never carry their [appointments],
    [ratings] or [__v] members. *)
Theorem getDoctorsByClinic_omits_collections (E : Env) (req : Request) (db : Db)
    (doctors : list JsVal) (d : Obj) :
  prop (body (fst (getDoctorsByClinic E req db))) "doctors" = Some (VArr doctors) ->
  In (VObj d) doctors ->
  has_key "appointments" d = false /\ has_key "ratings" d = false /\ has_key "__v" d = false.
Proof.
  intros Hbody Hin.
  unfold getDoctorsByClinic, getDoctorsByClinic_body in Hbody. run_handler_in Hbody.
  unfold catch_read in Hbody.
  repeat (step Hbody; try discriminate).
  cbn [fst body listing prop lookup String.eqb Ascii.eqb Bool.eqb] in Hbody.
  match type of Hbody with
  | Some (VArr ?returned) = _ => assert (doctors = returned) as -> by congruence
  end.
  apply in_map_iff in Hin as (d' & Hd' & Hin). injection Hd' as ->.
  apply in_map_iff in Hin as (stored & <- & _).
  rewrite !has_key_populate_all_other by reflexivity.
  repeat split; apply has_key_select_out; simpl; auto.
Qed.

Lemma getDoctorsByClinic_omits_collections_witness :
  exists doctors d,
    prop (body (fst (getDoctorsByClinic Sample.env
                       (Sample.request "u2" "patient"
                          [("clinicId", "64b0000000000000000000c1")] [] VUndef)
                       Sample.store))) "doctors" = Some (VArr doctors) /\
    In (VObj d) doctors /\
    lookup "name" d = VStr "Asha" /\
    has_key "ratings" Sample.doctor1 = true /\
    has_key "appointments" d = false /\ has_key "ratings" d = false /\ has_key "__v" d = false.
Proof.
  eexists. eexists.
  split; [reflexivity|]. split; [now left|]. split; [reflexivity|]. split; [reflexivity|].
  apply (getDoctorsByClinic_omits_collections Sample.env
           (Sample.request "u2" "patient" [("clinicId", "64b0000000000000000000c1")] [] VUndef)
           Sample.store _ _ eq_refl).
  now left.
Defined.

Lemma populated_reference_fields (E : Env) (db : Db) (m : Model) (path k : string)
    (select : list string) (d o : Obj) :
  lookup path (populate E db m path select d) = VObj o ->
  has_key k o = true ->
  k = "_id" \/ In k select.
Proof.
  unfold populate. intros Hpop Hk. revert Hpop.
  destruct (lookup path d) eqn:Hpath;
    try (rewrite Hpath; discriminate);
    match goal with
    | |- context [find_first ?a ?b ?c] => destruct (find_first a b c) as [r|]
    end;
    rewrite lookup_obj_set_same; intros Hpop; try discriminate;
    injection Hpop as <-; exact (has_key_select_in _ _ _ Hk).
Qed.

(** X12: the listings disclose only the selected members of the records
    they populate: in the patient's listing a prescription's doctor shows
    its [_id], name and specialization and nothing else (no licence
    number), and in the doctor's listing a patient shows its [_id] and name
    and nothing else (no date of birth). *)
Theorem listings_disclose_selected_fields (E : Env) (req : Request) (db : Db)
    (prescriptions : list JsVal) (d o : Obj) (k : string) :
  In (VObj d) prescriptions ->
  has_key k o = true ->
  (prop (body (fst (getPatientPrescriptions E req db))) "prescriptions" =
     Some (VArr prescriptions) ->
   lookup "doctorId" d = VObj o -> In k ["_id"; "name"; "specialization"]) /\
  (prop (body (fst (getDoctorPrescriptions E req db))) "prescriptions" =
     Some (VArr prescriptions) ->
   lookup "patientId" d = VObj o -> In k ["_id"; "name"]).
Proof.
  intros Hin Hk. split; intros Hbody Ho.
  - unfold getPatientPrescriptions, getPatientPrescriptions_body in Hbody.
    run_handler_in Hbody. unfold catch_read in Hbody.
    repeat (step Hbody; try discriminate).
    cbn [fst body listing prop lookup String.eqb Ascii.eqb Bool.eqb] in Hbody.
    match type of Hbody with
    | Some (VArr ?returned) = _ => assert (prescriptions = returned) as -> by congruence
    end.
    apply in_map_iff in Hin as (d' & Hd' & Hin). injection Hd' as ->.
    apply in_map_iff in Hin as (stored & <- & _).
    unfold populate_all in Ho. cbn [fold_left fst snd] in Ho.
    rewrite lookup_populate_other in Ho by reflexivity.
    destruct (populated_reference_fields _ _ _ _ k _ _ _ Ho Hk) as [-> | Hsel];
      simpl; auto.
  - unfold getDoctorPrescriptions, getDoctorPrescriptions_body in Hbody.
    run_handler_in Hbody. unfold catch_read in Hbody.
    repeat (step Hbody; try discriminate).
    cbn [fst body listing prop lookup String.eqb Ascii.eqb Bool.eqb] in Hbody.
    match type of Hbody with
    | Some (VArr ?returned) = _ => assert (prescriptions = returned) as -> by congruence
    end.
    apply in_map_iff in Hin as (d' & Hd' & Hin). injection Hd' as ->.
    apply in_map_iff in Hin as (stored & <- & _).
    unfold populate_all in Ho. cbn [fold_left fst snd] in Ho.
    rewrite lookup_populate_other in Ho by reflexivity.
    destruct (populated_reference_fields _ _ _ _ k _ _ _ Ho Hk) as [-> | Hsel];
      simpl; auto.
Qed.

Lemma listings_disclose_selected_fields_witness :
  exists prescriptions d o,
    prop (body (fst (getPatientPrescriptions Sample.env
                       (Sample.request "p1" "patient" [] [] VUndef) Sample.store)))
      "prescriptions" = Some (VArr prescriptions) /\
    In (VObj d) prescriptions /\
    lookup "doctorId" d = VObj o /\
    has_key "specialization" o = true /\
    has_key "licenseNumber" Sample.doctor1 = true /\
    In "specialization" ["_id"; "name"; "specialization"].
Proof.
  pose (d := populate_all Sample.env Sample.store Prescription
               [("doctorId", ["name"; "specialization"]); ("appointmentId", ["date"])]
               (Sample.rx "r5" "d1" "p1" 50)).
  pose (o := select_in ["name"; "specialization"] Sample.doctor1).
  exists [VObj d], d, o.
  split; [reflexivity|]. split; [now left|]. split; [reflexivity|].
  split; [reflexivity|]. split; [reflexivity|].
  refine (proj1 (listings_disclose_selected_fields Sample.env
                   (Sample.request "p1" "patient" [] [] VUndef) Sample.store
                   [VObj d] d o "specialization" _ _) eq_refl eq_refl);
    [now left | reflexivity].
Defined.

(** One more step along a handler run recorded in [H], for the handlers
    that verify a token, upload a file or read the doctor's profile. *)
Ltac step_any H :=
  match type of H with
  | context [match prop ?v ?k with _ => _ end] => destruct (prop v k) eqn:?
  | context [match db_fault ?E ?d ?c with _ => _ end] => destruct (db_fault E d c) eqn:?
  | context [match ?fault ?d (CallExists ?m ?q) with _ => _ end] =>
      destruct (fault d (CallExists m q)) eqn:?
  | context [match ?fault ?d (CallFindOnePopulated ?m ?q ?ps) with _ => _ end] =>
      destruct (fault d (CallFindOnePopulated m q ps)) eqn:?
  | context [match verifyAccessToken ?E ?t with _ => _ end] =>
      destruct (verifyAccessToken E t) eqn:?
  | context [match uploadToCloudinary ?E ?p with _ => _ end] =>
      destruct (uploadToCloudinary E p) eqn:?
  | context [option_map ?f (find_first ?d ?m ?q)] =>
      destruct (find_first d m q) eqn:?; cbn [option_map] in H
  | context [match find_first ?d ?m ?q with _ => _ end] => destruct (find_first d m q) eqn:?
  | context [match req_file ?r with _ => _ end] => destruct (req_file r) eqn:?
  | context [match req_body ?r with _ => _ end] => destruct (req_body r) eqn:?
  | context [if ?c then _ else _] => destruct c eqn:?
  end; cbv beta iota in H.

Ltac store_kept H :=
  repeat (step_any H; try (apply pair_equal_spec in H as [_ <-]; reflexivity));
  try (apply pair_equal_spec in H as [_ <-]; reflexivity).

(** X13: reading never writes.  The two listings, the single read, the
    clinic listing, the doctor's own profile and the authentication
    middleware return the store they were given, whatever the request and
    whatever fails. *)
Theorem reads_leave_the_store (E : Env) (profile_fault : Db -> ProfileCall -> option JsError)
    (req : Request) (db : Db) :
  snd (getPatientPrescriptions E req db) = db /\
  snd (getDoctorPrescriptions E req db) = db /\
  snd (getPrescription E req db) = db /\
  snd (getDoctorsByClinic E req db) = db /\
  snd (getDoctorProfile E profile_fault req db) = db /\
  snd (authenticate E req db) = db.
Proof.
  repeat apply conj.
  - destruct (getPatientPrescriptions E req db) as [r db'] eqn:H. cbn [snd].
    unfold getPatientPrescriptions, getPatientPrescriptions_body in H. run_handler_in H.
    store_kept H.
  - destruct (getDoctorPrescriptions E req db) as [r db'] eqn:H. cbn [snd].
    unfold getDoctorPrescriptions, getDoctorPrescriptions_body in H. run_handler_in H.
    store_kept H.
  - destruct (getPrescription E req db) as [r db'] eqn:H. cbn [snd].
    unfold getPrescription, getPrescription_body in H. run_handler_in H.
    store_kept H.
  - destruct (getDoctorsByClinic E req db) as [r db'] eqn:H. cbn [snd].
    unfold getDoctorsByClinic, getDoctorsByClinic_body in H. run_handler_in H.
    store_kept H.
  - destruct (getDoctorProfile E profile_fault req db) as [r db'] eqn:H. cbn [snd].
    unfold getDoctorProfile, getDoctorProfile_body, exists_doc, findOne_populated,
      profile_call in H.
    run_handler_in H. store_kept H.
  - destruct (authenticate E req db) as [r db'] eqn:H. cbn [snd].
    unfold authenticate, authenticate_body in H. run_handler_in H.
    store_kept H.
Qed.

(** ** The doctor-profile controller: the other outcomes *)

Lemma has_key_In (k : string) (o : Obj) : has_key k o = true <-> In k (map fst o).
Proof.
  induction o as [|[k' v] o IH]; simpl; [split; [discriminate | tauto]|].
  rewrite orb_true_iff, IH, String.eqb_eq. tauto.
Qed.

Lemma has_key_false_lookup (k : string) (o : Obj) : has_key k o = false -> lookup k o = VUndef.
Proof.
  induction o as [|[k' v] o IH]; simpl; [reflexivity|].
  intros H. apply orb_false_elim in H as [-> Ho]. auto.
Qed.

Lemma NoDup_keys_tail (k : string) (v : JsVal) (o : Obj) :
  NoDup (map fst ((k, v) :: o)) -> has_key k o = false /\ NoDup (map fst o).
Proof.
  simpl. intros H. inversion H as [|x l Hnotin Hnodup]; subst. split; [|exact Hnodup].
  destruct (has_key k o) eqn:Hk; [|reflexivity].
  now apply has_key_In in Hk.
Qed.

Lemma has_key_obj_set_same (k : string) (v : JsVal) (o : Obj) : has_key k (obj_set k v o) = true.
Proof.
  induction o as [|[k' v'] o IH]; simpl.
  - now rewrite String.eqb_refl.
  - destruct (k' =? k) eqn:Hk; simpl; [now rewrite String.eqb_refl | now rewrite Hk].
Qed.

Lemma NoDup_obj_set (k : string) (v : JsVal) (o : Obj) :
  NoDup (map fst o) -> NoDup (map fst (obj_set k v o)).
Proof.
  induction o as [|[k' v'] o IH]; simpl; intros H.
  - repeat constructor. simpl. tauto.
  - inversion H as [|x l Hnotin Hnodup]; subst.
    destruct (k' =? k) eqn:Hk; simpl.
    + apply String.eqb_eq in Hk; subst k'. now constructor.
    + constructor; [|now apply IH].
      intros Hin. apply has_key_In in Hin.
      rewrite has_key_obj_set_other in Hin by (now rewrite String.eqb_sym).
      now apply has_key_In in Hin.
Qed.

Lemma NoDup_obj_merge (a b : Obj) : NoDup (map fst a) -> NoDup (map fst (obj_merge a b)).
Proof.
  unfold obj_merge. revert a. induction b as [|[k v] b IH]; intros a Ha; simpl; [exact Ha|].
  apply IH. now apply NoDup_obj_set.
Qed.

(** [{ ...a, ...b }] reads as [b] where [b] has the key, and as [a] elsewhere. *)
Lemma lookup_obj_merge (a b : Obj) (k : string) :
  NoDup (map fst b) ->
  lookup k (obj_merge a b) = if has_key k b then lookup k b else lookup k a.
Proof.
  unfold obj_merge. revert a. induction b as [|[k' v] b IH]; intros a Hb; simpl; [reflexivity|].
  apply NoDup_keys_tail in Hb as [Hk' Hb]. rewrite IH by exact Hb.
  destruct (k' =? k) eqn:Hk; simpl.
  - apply String.eqb_eq in Hk; subst k'. rewrite Hk'. apply lookup_obj_set_same.
  - destruct (has_key k b); [reflexivity|]. now apply lookup_obj_set_other.
Qed.

Lemma has_key_obj_merge (a b : Obj) (k : string) :
  has_key k (obj_merge a b) = has_key k a || has_key k b.
Proof.
  unfold obj_merge. revert a. induction b as [|[k' v] b IH]; intros a; simpl.
  - now rewrite orb_false_r.
  - rewrite IH. destruct (k' =? k) eqn:Hk; simpl.
    + apply String.eqb_eq in Hk; subst k'. rewrite has_key_obj_set_same.
      now rewrite orb_true_r.
    + now rewrite has_key_obj_set_other.
Qed.

Lemma lookup_defined_fields (o : Obj) (k : string) :
  NoDup (map fst o) -> lookup k (defined_fields o) = lookup k o.
Proof.
  induction o as [|[k' v] o IH]; intros Ho; [reflexivity|].
  apply NoDup_keys_tail in Ho as [Hk' Ho].
  rewrite lookup_defined_fields_cons. simpl.
  destruct (k' =? k) eqn:Hk; [|now apply IH].
  apply String.eqb_eq in Hk; subst k'.
  destruct (is_undef v) eqn:Hv; [|reflexivity].
  apply is_undef_eq in Hv; subst v.
  apply has_key_false_lookup. now apply has_key_filter_false.
Qed.

(** The body of a profile creation that passes the checks made before the
    upload. *)
Lemma createDoctorProfile_checked (E : Env) (req : Request) (db : Db) (o : Obj) :
  ObjectId_isValid E (lookup "userId" (req_user req)) = true ->
  db_fault E db (CallFindOne Doctor [("userId", lookup "userId" (req_user req))]) = None ->
  (forall d, In d (db Doctor) -> lookup "userId" d <> lookup "userId" (req_user req)) ->
  req_body req = VObj o ->
  truthy (lookup "specialization" o) = true ->
  truthy (lookup "qualifications" o) = true ->
  createDoctorProfile E req db =
    try_catch
      (doctorData <- upload_picture E req (VObj o) ;;
       doctor <- new_doc E (obj_merge [("userId", lookup "userId" (req_user req))]
                              (spread doctorData)) ;;
       save_new E Doctor doctor ;;;
       respond 201 (VObj [("message", VStr "Doctor profile created successfully");
                          ("doctor", VObj doctor)]))
      (catch_write E "Failed to create doctor profile") db.
Proof.
  intros Hvalid Hfault Hnone Hbody Hs Hq.
  unfold createDoctorProfile, createDoctorProfile_body. run_handler.
  rewrite Hvalid, Hbody. cbn [negb prop]. reduce. rewrite Hfault.
  unfold find_first. rewrite find_docs_none.
  - cbn [hd_error]. reduce. now rewrite Hs, Hq.
  - intros d Hd. unfold matches. simpl. now rewrite jsval_eqb_neq by auto.
Qed.

(** A profile creation without a file that passes the checks. *)
Lemma createDoctorProfile_run (E : Env) (req : Request) (db : Db) (o : Obj) :
  let userId := lookup "userId" (req_user req) in
  ObjectId_isValid E userId = true ->
  (forall d c, db_fault E d c = None) ->
  (forall d, In d (db Doctor) -> lookup "userId" d <> userId) ->
  req_body req = VObj o ->
  NoDup (map fst o) ->
  has_key "_id" o = false ->
  truthy (lookup "specialization" o) = true ->
  truthy (lookup "qualifications" o) = true ->
  req_file req = None ->
  exists doctor,
    createDoctorProfile E req db =
      ({| status := 201;
          body := VObj [("message", VStr "Doctor profile created successfully");
                        ("doctor", VObj doctor)] |},
       insert_doc db Doctor doctor) /\
    lookup "_id" doctor = new_ObjectId E db /\
    (forall k, has_key k o = true -> lookup k doctor = lookup k o) /\
    (has_key "userId" o = false -> lookup "userId" doctor = userId).
Proof.
  cbv zeta. intros Hvalid Hstore Hnone Hbody Hkeys Hid Hs Hq Hfile.
  rewrite (createDoctorProfile_checked E req db o Hvalid (Hstore _ _) Hnone Hbody Hs Hq).
  unfold upload_picture. rewrite Hfile. run_handler. rewrite Hstore. cbn [spread].
  eexists. split; [reflexivity|].
  assert (NoDup (map fst (obj_merge [("userId", lookup "userId" (req_user req))] o)))
    as Hmerged by (apply NoDup_obj_merge; repeat constructor; simpl; tauto).
  split; [apply lookup_obj_set_same|]. split.
  - intros k Hk.
    assert ((("_id" : string) =? k) = false) as Hne.
    { apply String.eqb_neq. intros <-. congruence. }
    rewrite lookup_obj_set_other by exact Hne.
    rewrite lookup_defined_fields by exact Hmerged.
    now rewrite lookup_obj_merge, Hk.
  - intros Hk.
    rewrite lookup_obj_set_other by reflexivity.
    rewrite lookup_defined_fields by exact Hmerged.
    now rewrite lookup_obj_merge, Hk.
Qed.

(** X14: a create-doctor-profile request without a file that passes the
    checks stores one new profile and is answered 201.  The profile has a
    fresh [_id] and every member of the body; its [userId] is the
    requester's only when the body has no [userId] member: a [userId] in the
    body takes its place. *)
Theorem createDoctorProfile_stores_body (E : Env) (req : Request) (db : Db) (o : Obj) :
  let userId := lookup "userId" (req_user req) in
  ObjectId_isValid E userId = true ->
  (forall d c, db_fault E d c = None) ->
  (forall d, In d (db Doctor) -> lookup "userId" d <> userId) ->
  req_body req = VObj o ->
  NoDup (map fst o) ->
  has_key "_id" o = false ->
  truthy (lookup "specialization" o) = true ->
  truthy (lookup "qualifications" o) = true ->
  req_file req = None ->
  exists doctor,
    createDoctorProfile E req db =
      ({| status := 201;
          body := VObj [("message", VStr "Doctor profile created successfully");
                        ("doctor", VObj doctor)] |},
       insert_doc db Doctor doctor) /\
    lookup "_id" doctor = new_ObjectId E db /\
    (forall k, has_key k o = true -> lookup k doctor = lookup k o) /\
    (has_key "userId" o = false -> lookup "userId" doctor = userId).
Proof.
  cbv zeta. intros Hvalid Hstore Hnone Hbody Hkeys Hid Hs Hq Hfile.
  rewrite (createDoctorProfile_checked E req db o Hvalid (Hstore _ _) Hnone Hbody Hs Hq).
  unfold upload_picture. rewrite Hfile. run_handler. rewrite Hstore. cbn [spread].
  eexists. split; [reflexivity|].
  assert (NoDup (map fst (obj_merge [("userId", lookup "userId" (req_user req))] o)))
    as Hmerged by (apply NoDup_obj_merge; repeat constructor; simpl; tauto).
  split; [apply lookup_obj_set_same|].
  rewrite !lookup_obj_set_other by reflexivity.
  rewrite !lookup_defined_fields by exact Hmerged.
  rewrite lookup_obj_merge by exact Hkeys.
  split.
  - intros k Hk.
    assert ((("_id" : string) =? k) = false) as Hne
      by (apply String.eqb_neq; intros <-; congruence).
    rewrite lookup_obj_set_other, lookup_defined_fields, lookup_obj_merge by assumption.
    now rewrite Hk.
  - now intros ->.
Qed.

Lemma createDoctorProfile_stores_body_witness :
  let own := [("specialization", VStr "Dermatology"); ("qualifications", VStr "MD")] in
  let forged := [("specialization", VStr "Dermatology"); ("qualifications", VStr "MD");
                 ("userId", Sample.oid "u1")] in
  (exists doctor,
     createDoctorProfile Sample.env (Scenario.newcomer (VObj own)) Sample.store =
       ({| status := 201;
           body := VObj [("message", VStr "Doctor profile created successfully");
                         ("doctor", VObj doctor)] |},
        insert_doc Sample.store Doctor doctor) /\
     lookup "userId" doctor = Sample.oid "u3") /\
  (exists doctor,
     createDoctorProfile Sample.env (Scenario.newcomer (VObj forged)) Sample.store =
       ({| status := 201;
           body := VObj [("message", VStr "Doctor profile created successfully");
                         ("doctor", VObj doctor)] |},
        insert_doc Sample.store Doctor doctor) /\
     lookup "userId" doctor = Sample.oid "u1").
Proof.
  cbv zeta.
  assert (forall d, In d (Sample.store Doctor) -> lookup "userId" d <> Sample.oid "u3")
    as Hnone by (intros d [<- | []]; discriminate).
  split.
  - destruct (createDoctorProfile_stores_body Sample.env
                (Scenario.newcomer (VObj [("specialization", VStr "Dermatology");
                                          ("qualifications", VStr "MD")]))
                Sample.store _ eq_refl (fun _ _ => eq_refl) Hnone eq_refl)
      as (doctor & Hrun & _ & _ & Huser); try reflexivity.
    { repeat constructor; simpl; intuition discriminate. }
    exists doctor. split; [exact Hrun | exact (Huser eq_refl)].
  - destruct (createDoctorProfile_stores_body Sample.env
                (Scenario.newcomer (VObj [("specialization", VStr "Dermatology");
                                          ("qualifications", VStr "MD");
                                          ("userId", Sample.oid "u1")]))
                Sample.store _ eq_refl (fun _ _ => eq_refl) Hnone eq_refl)
      as (doctor & Hrun & _ & Hbody & _); try reflexivity.
    { repeat constructor; simpl; intuition discriminate. }
    exists doctor. split; [exact Hrun | exact (Hbody "userId" eq_refl)].
Defined.

(** X15: the duplicate check of a profile creation guards the requester's
    own [userId] only.  When the body names the [userId] of a user who has
    a profile already, the request is still answered 201, and the store
    holds two profiles for that user. *)
Theorem createDoctorProfile_forged_userId (E : Env) (req : Request) (db : Db)
    (o existing : Obj) :
  let userId := lookup "userId" (req_user req) in
  ObjectId_isValid E userId = true ->
  (forall d c, db_fault E d c = None) ->
  (forall d, In d (db Doctor) -> lookup "userId" d <> userId) ->
  req_body req = VObj o ->
  NoDup (map fst o) ->
  has_key "_id" o = false ->
  truthy (lookup "specialization" o) = true ->
  truthy (lookup "qualifications" o) = true ->
  req_file req = None ->
  has_key "userId" o = true ->
  In existing (db Doctor) ->
  lookup "userId" existing = lookup "userId" o ->
  exists doctor,
    status (fst (createDoctorProfile E req db)) = 201 /\
    snd (createDoctorProfile E req db) Doctor = (db Doctor ++ [doctor])%list /\
    lookup "userId" doctor = lookup "userId" existing.
Proof.
  cbv zeta. intros Hvalid Hstore Hnone Hbody Hkeys Hid Hs Hq Hfile Huser Hin Hsame.
  destruct (createDoctorProfile_run E req db o Hvalid Hstore Hnone Hbody Hkeys Hid Hs Hq Hfile)
    as (doctor & -> & _ & Hmembers & _).
  exists doctor. cbn [fst snd status]. split; [reflexivity|]. split.
  - unfold insert_doc, set_collection. reflexivity.
  - now rewrite Hsame, Hmembers.
Qed.

Lemma createDoctorProfile_forged_userId_witness :
  let forged := [("specialization", VStr "Dermatology"); ("qualifications", VStr "MD");
                 ("userId", Sample.oid "u1")] in
  exists doctor,
    status (fst (createDoctorProfile Sample.env (Scenario.newcomer (VObj forged))
                   Sample.store)) = 201 /\
    snd (createDoctorProfile Sample.env (Scenario.newcomer (VObj forged)) Sample.store) Doctor =
      [Sample.doctor1; doctor] /\
    lookup "userId" doctor = lookup "userId" Sample.doctor1.
Proof.
  cbv zeta.
  assert (forall d, In d (Sample.store Doctor) -> lookup "userId" d <> Sample.oid "u3")
    as Hnone by (intros d [<- | []]; discriminate).
  assert (NoDup (map fst [("specialization", VStr "Dermatology"); ("qualifications", VStr "MD");
                          ("userId", Sample.oid "u1")])) as Hkeys
    by (repeat constructor; simpl; intuition discriminate).
  exact (createDoctorProfile_forged_userId Sample.env
           (Scenario.newcomer (VObj [("specialization", VStr "Dermatology");
                                     ("qualifications", VStr "MD");
                                     ("userId", Sample.oid "u1")]))
           Sample.store _ Sample.doctor1 eq_refl (fun _ _ => eq_refl) Hnone eq_refl
           Hkeys eq_refl eq_refl eq_refl eq_refl eq_refl (or_introl eq_refl) eq_refl).
Defined.

(** X16: a profile is created once.  After a creation whose body has no
    [userId] member succeeded, a second create-doctor-profile request by the
    same user is answered 409 and stores nothing. *)
Theorem createDoctorProfile_twice (E : Env) (req again : Request) (db : Db) (o : Obj) :
  let userId := lookup "userId" (req_user req) in
  ObjectId_isValid E userId = true ->
  (forall d c, db_fault E d c = None) ->
  (forall d, In d (db Doctor) -> lookup "userId" d <> userId) ->
  req_body req = VObj o ->
  NoDup (map fst o) ->
  has_key "_id" o = false ->
  has_key "userId" o = false ->
  truthy (lookup "specialization" o) = true ->
  truthy (lookup "qualifications" o) = true ->
  req_file req = None ->
  lookup "userId" (req_user again) = userId ->
  let db' := snd (createDoctorProfile E req db) in
  createDoctorProfile E again db' =
    ({| status := 409; body := VObj [("message", VStr "Doctor profile already exists")] |}, db').
Proof.
  cbv zeta. intros Hvalid Hstore Hnone Hbody Hkeys Hid Huser Hs Hq Hfile Hagain.
  destruct (createDoctorProfile_run E req db o Hvalid Hstore Hnone Hbody Hkeys Hid Hs Hq Hfile)
    as (doctor & -> & _ & _ & Hown).
  cbn [snd]. specialize (Hown Huser).
  destruct (find_first_exists (insert_doc db Doctor doctor) Doctor
              [("userId", lookup "userId" (req_user req))] doctor) as [found Hfound].
  { unfold insert_doc, set_collection. simpl. apply in_or_app. right. now left. }
  { unfold matches. simpl. now rewrite Hown, jsval_eqb_refl. }
  unfold createDoctorProfile, createDoctorProfile_body. run_handler.
  rewrite Hagain, Hvalid. cbn [negb]. reduce.
  now rewrite Hstore, Hfound.
Qed.

Lemma createDoctorProfile_twice_witness :
  let body := VObj [("specialization", VStr "Dermatology"); ("qualifications", VStr "MD")] in
  let db' := snd (createDoctorProfile Sample.env (Scenario.newcomer body) Sample.store) in
  createDoctorProfile Sample.env (Scenario.newcomer body) db' =
    ({| status := 409; body := VObj [("message", VStr "Doctor profile already exists")] |}, db').
Proof.
  assert (forall d, In d (Sample.store Doctor) -> lookup "userId" d <> Sample.oid "u3")
    as Hnone by (intros d [<- | []]; discriminate).
  assert (NoDup (map fst [("specialization", VStr "Dermatology");
                          ("qualifications", VStr "MD")])) as Hkeys
    by (repeat constructor; simpl; intuition discriminate).
  exact (createDoctorProfile_twice Sample.env
           (Scenario.newcomer (VObj [("specialization", VStr "Dermatology");
                                     ("qualifications", VStr "MD")]))
           (Scenario.newcomer (VObj [("specialization", VStr "Dermatology");
                                     ("qualifications", VStr "MD")]))
           Sample.store _ eq_refl (fun _ _ => eq_refl) Hnone eq_refl
           Hkeys eq_refl eq_refl eq_refl eq_refl eq_refl eq_refl).
Defined.

(** X17: a create-doctor-profile request is checked in this order.  A
    requester whose [userId] is not a well-formed object id is answered 400
    without the store being asked; otherwise, with no profile yet, a body
    that lacks a specialization or qualifications is answered 400 with one
    error per missing member, and nothing is stored. *)
Theorem createDoctorProfile_rejections (E : Env) (req : Request) (db : Db) :
  let userId := lookup "userId" (req_user req) in
  (ObjectId_isValid E userId = false ->
   createDoctorProfile E req db =
     ({| status := 400; body := VObj [("message", VStr "Invalid user ID format")] |}, db)) /\
  (forall o,
     ObjectId_isValid E userId = true ->
     db_fault E db (CallFindOne Doctor [("userId", userId)]) = None ->
     (forall d, In d (db Doctor) -> lookup "userId" d <> userId) ->
     req_body req = VObj o ->
     truthy (lookup "specialization" o) = false \/ truthy (lookup "qualifications" o) = false ->
     createDoctorProfile E req db =
       ({| status := 400;
           body := VObj [("message", VStr "Specialization and qualifications are required");
                         ("errors", VObj [
                            ("specialization",
                               if truthy (lookup "specialization" o) then VUndef
                               else VStr "Specialization is required");
                            ("qualifications",
                               if truthy (lookup "qualifications" o) then VUndef
                               else VStr "Qualifications are required")])] |}, db)).
Proof.
  cbv zeta. split.
  - intros Hid. unfold createDoctorProfile, createDoctorProfile_body. run_handler.
    now rewrite Hid.
  - intros o Hvalid Hfault Hnone Hbody Hmissing.
    unfold createDoctorProfile, createDoctorProfile_body. run_handler.
    rewrite Hvalid, Hbody. cbn [negb prop]. reduce. rewrite Hfault.
    unfold find_first. rewrite find_docs_none.
    + cbn [hd_error]. reduce. unfold str_or_undef.
      destruct (truthy (lookup "specialization" o)) eqn:Hs;
        destruct (truthy (lookup "qualifications" o)) eqn:Hq; try reflexivity.
      destruct Hmissing; congruence.
    + intros d Hd. unfold matches. simpl. now rewrite jsval_eqb_neq by auto.
Qed.

Lemma createDoctorProfile_rejections_witness :
  createDoctorProfile (Scenario.deployment Scenario.store_down "production" Scenario.upload_ok)
    (Scenario.outsider (VObj [])) Sample.store =
    ({| status := 400; body := VObj [("message", VStr "Invalid user ID format")] |},
     Sample.store) /\
  createDoctorProfile Sample.env
    (Scenario.newcomer (VObj [("specialization", VStr "Dermatology")])) Sample.store =
    ({| status := 400;
        body := VObj [("message", VStr "Specialization and qualifications are required");
                      ("errors", VObj [("specialization", VUndef);
                                       ("qualifications",
                                        VStr "Qualifications are required")])] |},
     Sample.store).
Proof.
  split.
  - apply (proj1 (createDoctorProfile_rejections
                    (Scenario.deployment Scenario.store_down "production" Scenario.upload_ok)
                    (Scenario.outsider (VObj [])) Sample.store)).
    reflexivity.
  - apply (proj2 (createDoctorProfile_rejections Sample.env
                    (Scenario.newcomer (VObj [("specialization", VStr "Dermatology")]))
                    Sample.store) [("specialization", VStr "Dermatology")]);
      try reflexivity.
    + intros d [<- | []]; discriminate.
    + right. reflexivity.
Defined.

(** X18: the picture of a new profile.  When the upload service fails the
    request is answered 500 and nothing is stored; when it returns a url,
    the stored profile's [profilePicture] is that url, whatever the body
    said. *)
Theorem createDoctorProfile_picture (E : Env) (req : Request) (db : Db) (o : Obj)
    (path : string) :
  let userId := lookup "userId" (req_user req) in
  ObjectId_isValid E userId = true ->
  (forall d c, db_fault E d c = None) ->
  (forall d, In d (db Doctor) -> lookup "userId" d <> userId) ->
  req_body req = VObj o ->
  NoDup (map fst o) ->
  truthy (lookup "specialization" o) = true ->
  truthy (lookup "qualifications" o) = true ->
  req_file req = Some path ->
  (forall e, uploadToCloudinary E path = inl e ->
     createDoctorProfile E req db =
       ({| status := 500;
           body := VObj [("message", VStr "Failed to upload profile picture")] |}, db)) /\
  (forall result url,
     uploadToCloudinary E path = inr result ->
     prop result "url" = Some url ->
     exists doctor,
       createDoctorProfile E req db =
         ({| status := 201;
             body := VObj [("message", VStr "Doctor profile created successfully");
                           ("doctor", VObj doctor)] |},
          insert_doc db Doctor doctor) /\
       lookup "profilePicture" doctor = url).
Proof.
  cbv zeta. intros Hvalid Hstore Hnone Hbody Hkeys Hs Hq Hfile.
  rewrite (createDoctorProfile_checked E req db o Hvalid (Hstore _ _) Hnone Hbody Hs Hq).
  unfold upload_picture. rewrite Hfile. split.
  - intros e ->. reflexivity.
  - intros result url -> ->. run_handler. rewrite Hstore. cbn [spread].
    eexists. split; [reflexivity|].
    rewrite lookup_obj_set_other by reflexivity.
    rewrite lookup_defined_fields
      by (apply NoDup_obj_merge; repeat constructor; simpl; tauto).
    rewrite lookup_obj_merge by (now apply NoDup_obj_set).
    now rewrite has_key_obj_set_same, lookup_obj_set_same.
Qed.

Lemma createDoctorProfile_picture_witness :
  let req := Scenario.with_file
               (Scenario.newcomer (VObj [("specialization", VStr "Dermatology");
                                         ("qualifications", VStr "MD");
                                         ("profilePicture", VStr "mine.png")]))
               "tmp/upload-1" in
  createDoctorProfile (Scenario.deployment Scenario.no_fault "production" Scenario.upload_down)
    req Sample.store =
    ({| status := 500;
        body := VObj [("message", VStr "Failed to upload profile picture")] |},
     Sample.store) /\
  exists doctor,
    createDoctorProfile Sample.env req Sample.store =
      ({| status := 201;
          body := VObj [("message", VStr "Doctor profile created successfully");
                        ("doctor", VObj doctor)] |},
       insert_doc Sample.store Doctor doctor) /\
    lookup "profilePicture" doctor = VStr "https://cdn.example/tmp/upload-1".
Proof.
  cbv zeta.
  assert (forall d, In d (Sample.store Doctor) -> lookup "userId" d <> Sample.oid "u3")
    as Hnone by (intros d [<- | []]; discriminate).
  assert (NoDup (map fst [("specialization", VStr "Dermatology");
                          ("qualifications", VStr "MD");
                          ("profilePicture", VStr "mine.png")])) as Hkeys
    by (repeat constructor; simpl; intuition discriminate).
  pose (req := Scenario.with_file
                 (Scenario.newcomer (VObj [("specialization", VStr "Dermatology");
                                           ("qualifications", VStr "MD");
                                           ("profilePicture", VStr "mine.png")]))
                 "tmp/upload-1").
  split.
  - exact (proj1 (createDoctorProfile_picture
                    (Scenario.deployment Scenario.no_fault "production" Scenario.upload_down)
                    req Sample.store _ "tmp/upload-1" eq_refl (fun _ _ => eq_refl) Hnone
                    eq_refl Hkeys eq_refl eq_refl eq_refl) _ eq_refl).
  - exact (proj2 (createDoctorProfile_picture Sample.env
                    req Sample.store _ "tmp/upload-1" eq_refl (fun _ _ => eq_refl) Hnone
                    eq_refl Hkeys eq_refl eq_refl eq_refl) _ _ eq_refl eq_refl).
Defined.




(** X20: a file alone is an update, a file without a body is not.  With
    an empty object as body and a file, the request goes on: the picture is
    uploaded and, for a stored profile, the answer is 200 and the stored
    [profilePicture] is the url returned; with no body at all the answer is
    400 even though a file is there. *)
Theorem updateDoctorProfile_file_only (E : Env) (req : Request) (db : Db) (path : string) :
  let userId := lookup "userId" (req_user req) in
  req_file req = Some path ->
  (req_body req = VUndef ->
   updateDoctorProfile E req db =
     ({| status := 400; body := VObj [("message", VStr "No updates provided")] |}, db)) /\
  (forall result url stored,
     req_body req = VObj [] ->
     uploadToCloudinary E path = inr result ->
     prop result "url" = Some url ->
     db_fault E db (CallFindOneAndUpdate Doctor [("userId", userId)]
                      (VObj [("profilePicture", url)])) = None ->
     find_first db Doctor [("userId", userId)] = Some stored ->
     exists updated,
       updateDoctorProfile E req db =
         ({| status := 200;
             body := VObj [("message", VStr "Doctor profile updated successfully");
                           ("doctor", VObj (select_out ["__v"] updated))] |},
          replace_doc db Doctor updated) /\
       lookup "profilePicture" updated = url /\
       In updated (replace_doc db Doctor updated Doctor)).
Proof.
  cbv zeta. intros Hfile. split.
  - intros Hbody.
    unfold updateDoctorProfile, updateDoctorProfile_body. run_handler.
    now rewrite Hbody.
  - intros result url stored Hbody Hupload Hurl Hfault Hfound.
    unfold updateDoctorProfile, updateDoctorProfile_body, upload_picture. run_handler.
    rewrite Hbody, Hfile, Hupload, Hurl. cbn [truthy negb keys_length List.length Nat.eqb
      andb orb obj_set]. reduce.
    rewrite Hfault, Hfound. cbn [spread].
    exists (obj_merge stored [("profilePicture", url)]). split; [reflexivity|].
    split; [apply lookup_obj_set_same|].
    destruct (find_first_In _ _ _ _ Hfound) as [Hin _].
    unfold replace_doc, set_collection. simpl.
    apply in_map_iff. exists stored. split; [|exact Hin].
    rewrite lookup_obj_set_other by reflexivity.
    now rewrite jsval_eqb_refl.
Qed.

Lemma updateDoctorProfile_file_only_witness :
  updateDoctorProfile Sample.env
    (Scenario.with_file (Sample.request "u1" "doctor" [] [] VUndef) "tmp/upload-2")
    Sample.store =
    ({| status := 400; body := VObj [("message", VStr "No updates provided")] |},
     Sample.store) /\
  exists updated,
    updateDoctorProfile Sample.env
      (Scenario.with_file (Sample.request "u1" "doctor" [] [] (VObj [])) "tmp/upload-2")
      Sample.store =
      ({| status := 200;
          body := VObj [("message", VStr "Doctor profile updated successfully");
                        ("doctor", VObj (select_out ["__v"] updated))] |},
       replace_doc Sample.store Doctor updated) /\
    lookup "profilePicture" updated = VStr "https://cdn.example/tmp/upload-2" /\
    In updated (replace_doc Sample.store Doctor updated Doctor).
Proof.
  split.
  - exact (proj1 (updateDoctorProfile_file_only Sample.env
                    (Scenario.with_file (Sample.request "u1" "doctor" [] [] VUndef)
                       "tmp/upload-2")
                    Sample.store "tmp/upload-2" eq_refl) eq_refl).
  - exact (proj2 (updateDoctorProfile_file_only Sample.env
                    (Scenario.with_file (Sample.request "u1" "doctor" [] [] (VObj []))
                       "tmp/upload-2")
                    Sample.store "tmp/upload-2" eq_refl)
             _ _ Sample.doctor1 eq_refl eq_refl eq_refl eq_refl eq_refl).
Defined.

(** ** The doctor's own profile *)

(** X21: the doctor's own profile.  Without a stored profile the answer is
    404.  A stored profile with no clinic and no appointments is answered
    as it is stored, less its [__v], after two calls to the store: the
    populating query is not made, so its failure cannot matter. *)
Theorem getDoctorProfile_plain (E : Env) (profile_fault : Db -> ProfileCall -> option JsError)
    (req : Request) (db : Db) :
  let q := [("userId", lookup "userId" (req_user req))] in
  profile_fault db (CallExists Doctor q) = None ->
  (find_first db Doctor q = None ->
   getDoctorProfile E profile_fault req db =
     ({| status := 404; body := VObj [("message", VStr "Doctor profile not found")] |}, db)) /\
  (forall doctor,
     find_first db Doctor q = Some doctor ->
     db_fault E db (CallFindOne Doctor q) = None ->
     truthy (lookup "clinicId" doctor) = false ->
     truthy (lookup "appointments" doctor) = false \/
     length_positive (lookup "appointments" doctor) = false ->
     getDoctorProfile E profile_fault req db =
       ({| status := 200; body := VObj (obj_remove "__v" doctor) |}, db)).
Proof.
  cbv zeta. intros Hexists. split.
  - intros Hnone.
    unfold getDoctorProfile, getDoctorProfile_body, exists_doc, profile_call. run_handler.
    now rewrite Hexists, Hnone.
  - intros doctor Hfound Hfault Hclinic Happointments.
    unfold getDoctorProfile, getDoctorProfile_body, exists_doc, profile_call. run_handler.
    rewrite Hexists, Hfound. cbn [option_map]. reduce.
    rewrite Hfault. reduce. rewrite Hfound. reduce. rewrite Hclinic.
    assert (truthy (lookup "appointments" doctor) &&
            length_positive (lookup "appointments" doctor) = false) as ->.
    { destruct Happointments as [-> | ->]; [reflexivity | apply andb_false_r]. }
    reflexivity.
Qed.

Lemma getDoctorProfile_plain_witness :
  getDoctorProfile Sample.env Scenario.profile_no_fault
    (Sample.request "u2" "patient" [] [] VUndef) Scenario.plain_store =
    ({| status := 404; body := VObj [("message", VStr "Doctor profile not found")] |},
     Scenario.plain_store) /\
  getDoctorProfile Sample.env
    (fun _ c => match c with CallExists _ _ => None | _ => Some Scenario.timeout end)
    (Sample.request "u3" "doctor" [] [] VUndef) Scenario.plain_store =
    ({| status := 200; body := VObj (obj_remove "__v" Scenario.plain_doctor) |},
     Scenario.plain_store).
Proof.
  split.
  - exact (proj1 (getDoctorProfile_plain Sample.env Scenario.profile_no_fault
                    (Sample.request "u2" "patient" [] [] VUndef) Scenario.plain_store
                    eq_refl) eq_refl).
  - exact (proj2 (getDoctorProfile_plain Sample.env
                    (fun _ c => match c with
                                | CallExists _ _ => None
                                | _ => Some Scenario.timeout
                                end)
                    (Sample.request "u3" "doctor" [] [] VUndef) Scenario.plain_store
                    eq_refl) Scenario.plain_doctor eq_refl eq_refl eq_refl
             (or_intror eq_refl)).
Defined.



(** ** The middleware: the other outcomes *)

(** X23: a failure of the store during authentication is reported as a
    bad token.  With a token that the token service accepts, the request is
    answered 403 'Invalid or expired token' when the user lookup fails, and
    also when the profile lookup fails. *)
Theorem authenticate_store_failure_403 (E : Env) (req : Request) (db : Db)
    (decoded id : JsVal) :
  let token := token_of (assoc "authorization" (req_headers req)) in
  truthy token = true ->
  verifyAccessToken E token = inr decoded ->
  prop decoded "userId" = Some id ->
  (forall e, db_fault E db (CallFindById User id) = Some e ->
     authenticate E req db = (rejected 403 "Invalid or expired token", db)) /\
  (forall stored m e,
     db_fault E db (CallFindById User id) = None ->
     find_first db User [("_id", id)] = Some stored ->
     profile_model (lookup "role" (select_out ["password"; "refreshToken"] stored)) = Some m ->
     db_fault E db
       (CallFindOne m [("userId",
                        lookup "_id" (select_out ["password"; "refreshToken"] stored))])
       = Some e ->
     authenticate E req db = (rejected 403 "Invalid or expired token", db)).
Proof.
  cbv zeta. intros Htoken Hverify Hid.
  unfold authenticate, authenticate_body. run_handler.
  rewrite Htoken, Hverify. cbn [negb]. reduce. rewrite Hid. reduce. split.
  - intros e ->. reflexivity.
  - intros stored m e -> ->. cbn [option_map populate_all fold_left]. reduce.
    set (user := select_out ["password"; "refreshToken"] stored).
    unfold profile_model.
    destruct (role_is (lookup "role" user) "admin");
      [|destruct (role_is (lookup "role" user) "doctor");
        [|destruct (role_is (lookup "role" user) "patient")]];
      intros Hm Hfault; try discriminate;
      injection Hm as <-; unfold findOne, db_call; now rewrite Hfault.
Qed.

Lemma authenticate_store_failure_403_witness :
  authenticate (Scenario.deployment Scenario.store_down "production" Scenario.upload_ok)
    (Sample.bearer [("authorization", "Bearer token-of-u1")]) Sample.store =
    (rejected 403 "Invalid or expired token", Sample.store) /\
  authenticate
    (Scenario.deployment
       (fun _ c => match c with CallFindOne _ _ => Some Scenario.timeout | _ => None end)
       "production" Scenario.upload_ok)
    (Sample.bearer [("authorization", "Bearer token-of-u1")]) Sample.store =
    (rejected 403 "Invalid or expired token", Sample.store).
Proof.
  split.
  - exact (proj1 (authenticate_store_failure_403
                    (Scenario.deployment Scenario.store_down "production" Scenario.upload_ok)
                    (Sample.bearer [("authorization", "Bearer token-of-u1")]) Sample.store
                    (VObj [("userId", Sample.oid "u1")]) (Sample.oid "u1")
                    eq_refl eq_refl eq_refl) Scenario.timeout eq_refl).
  - exact (proj2 (authenticate_store_failure_403
                    (Scenario.deployment
                       (fun _ c => match c with
                                   | CallFindOne _ _ => Some Scenario.timeout
                                   | _ => None
                                   end)
                       "production" Scenario.upload_ok)
                    (Sample.bearer [("authorization", "Bearer token-of-u1")]) Sample.store
                    (VObj [("userId", Sample.oid "u1")]) (Sample.oid "u1")
                    eq_refl eq_refl eq_refl)
             Sample.user1 Doctor Scenario.timeout eq_refl eq_refl eq_refl eq_refl).
Defined.

Lemma split_space_scheme (scheme rest : string) :
  no_space scheme = true ->
  split_space (scheme ++ String " "%char rest) = scheme :: split_space rest.
Proof.
  induction scheme as [|c scheme IH]; simpl; intros H; [reflexivity|].
  apply andb_prop in H as [Hc Hrest]. apply negb_true_iff in Hc.
  now rewrite Hc, IH.
Qed.

(** X24: the middleware reads the second word of the authorization header
    and ignores the first: whatever scheme word stands before the same
    credentials, the decision is the same as with 'Bearer', and a header of
    a single word is answered 401. *)
Theorem authenticate_ignores_scheme (E : Env) (req1 req2 : Request) (db : Db)
    (scheme credentials : string) :
  no_space scheme = true ->
  assoc "authorization" (req_headers req1) = VStr (scheme ++ " " ++ credentials) ->
  (assoc "authorization" (req_headers req2) = VStr ("Bearer " ++ credentials) ->
   auth_view (authenticate E req1 db) = auth_view (authenticate E req2 db)) /\
  (assoc "authorization" (req_headers req2) = VStr scheme ->
   authenticate E req2 db = (rejected 401 "Authentication required", db)).
Proof.
  intros Hscheme H1. split; intros H2.
  - assert (token_of (assoc "authorization" (req_headers req1)) =
            token_of (assoc "authorization" (req_headers req2))) as Htoken.
    { rewrite H1, H2. unfold token_of.
      change (split_space (scheme ++ " " ++ credentials))
        with (split_space (scheme ++ String " "%char credentials)).
      change (split_space ("Bearer " ++ credentials))
        with (split_space ("Bearer" ++ String " "%char credentials)).
      rewrite (split_space_scheme scheme credentials Hscheme).
      now rewrite (split_space_scheme "Bearer" credentials eq_refl). }
    unfold auth_view, authenticate, authenticate_body. run_handler.
    rewrite Htoken.
    destruct (negb (truthy (token_of (assoc "authorization" (req_headers req2)))));
      [reflexivity|]. reduce.
    destruct (verifyAccessToken E _); [reflexivity|]. reduce.
    destruct (prop _ "userId"); [|reflexivity]. reduce.
    destruct (db_fault E db _); [reflexivity|]. reduce.
    destruct (option_map _ _) as [user|]; [|reflexivity]. reduce.
    destruct (role_is (lookup "role" user) "admin");
      [|destruct (role_is (lookup "role" user) "doctor");
        [|destruct (role_is (lookup "role" user) "patient")]];
      unfold findOne, db_call;
      try (destruct (db_fault E db _); [reflexivity|];
           destruct (find_first db _ _); reflexivity);
      reflexivity.
  - unfold authenticate, authenticate_body. run_handler.
    rewrite H2. unfold token_of.
    assert (forall s, no_space s = true -> split_space s = [s]) as Hone.
    { clear. induction s as [|c s IH]; simpl; intros H; [reflexivity|].
      apply andb_prop in H as [Hc Hrest]. apply negb_true_iff in Hc.
      now rewrite Hc, IH. }
    now rewrite (Hone scheme Hscheme).
Qed.

Lemma authenticate_ignores_scheme_witness :
  auth_view (authenticate Sample.env
               (Sample.bearer [("authorization", "Basic token-of-u1")]) Sample.store) =
  auth_view (authenticate Sample.env
               (Sample.bearer [("authorization", "Bearer token-of-u1")]) Sample.store) /\
  authenticate Sample.env (Sample.bearer [("authorization", "Basic")]) Sample.store =
    (rejected 401 "Authentication required", Sample.store).
Proof.
  split.
  - exact (proj1 (authenticate_ignores_scheme Sample.env
                    (Sample.bearer [("authorization", "Basic token-of-u1")])
                    (Sample.bearer [("authorization", "Bearer token-of-u1")])
                    Sample.store "Basic" "token-of-u1" eq_refl eq_refl) eq_refl).
  - exact (proj2 (authenticate_ignores_scheme Sample.env
                    (Sample.bearer [("authorization", "Basic token-of-u1")])
                    (Sample.bearer [("authorization", "Basic")])
                    Sample.store "Basic" "token-of-u1" eq_refl eq_refl) eq_refl).
Defined.

Lemma identity_facts (stored profile : Obj) :
  let user := select_out ["password"; "refreshToken"] stored in
  let identity := obj_set "role" (lookup "role" user)
                    (obj_set "profileId" (lookup "_id" profile)
                       (obj_set "userId" (lookup "_id" user) user)) in
  has_key "password" identity = false /\
  has_key "refreshToken" identity = false /\
  lookup "role" identity = lookup "role" user /\
  lookup "userId" identity = lookup "_id" stored.
Proof.
  cbv zeta. repeat apply conj.
  - rewrite !has_key_obj_set_other by reflexivity. apply has_key_select_out. simpl; auto.
  - rewrite !has_key_obj_set_other by reflexivity. apply has_key_select_out. simpl; auto.
  - apply lookup_obj_set_same.
  - rewrite !lookup_obj_set_other by reflexivity. rewrite lookup_obj_set_same.
    now apply lookup_select_out_other.
Qed.

(** X25: what an authenticated request carries.  When the middleware
    passes a request on, the identity it wrote has no [password] and no
    [refreshToken] member, its role is one of admin, doctor and patient, its
    [userId] is the [userId] of the verified token, and nothing else of the
    request was changed. *)
Theorem authenticated_identity (E : Env) (req req' : Request) (db : Db) :
  fst (authenticate E req db) = Passed req' ->
  has_key "password" (req_user req') = false /\
  has_key "refreshToken" (req_user req') = false /\
  profile_model (lookup "role" (req_user req')) <> None /\
  (exists decoded,
     verifyAccessToken E (token_of (assoc "authorization" (req_headers req))) = inr decoded /\
     prop decoded "userId" = Some (lookup "userId" (req_user req'))) /\
  req' = set_user req (req_user req').
Proof.
  intros H.
  destruct (authenticate E req db) as [result db'] eqn:Hrun. cbn [fst] in H. subst result.
  unfold authenticate, authenticate_body in Hrun. run_handler_in Hrun.
  repeat (step_any Hrun; try discriminate).
  all: unfold findOne, db_call in Hrun.
  all: repeat (step_any Hrun; try discriminate).
  all: apply pair_equal_spec in Hrun as [Hreq _];
    match type of Hreq with
    | Passed ?passed = _ => assert (req' = passed) as -> by congruence
    end; cbn [req_user set_user].
  all: change (populate_all E db User []) with (fun x : Obj => x) in *; cbv beta in *.
  all: match goal with
       | Hu : find_first _ User [("_id", ?id)] = Some ?stored,
         Hp : find_first _ _ [("userId", _)] = Some ?profile |- _ =>
           destruct (find_first_In _ _ _ _ Hu) as [_ Hm];
           unfold matches in Hm; simpl in Hm;
           apply andb_prop in Hm as [Hm _]; apply jsval_eqb_eq in Hm;
           destruct (identity_facts stored profile) as (Hpw & Hrt & Hrole & Huser);
           cbv zeta in Hpw, Hrt, Hrole, Huser
       end.
  all: split; [exact Hpw|]; split; [exact Hrt|]; split; [|split; [|reflexivity]].
  all: try (rewrite Hrole; unfold profile_model;
            repeat match goal with
                   | Hr : role_is _ _ = _ |- _ => rewrite Hr
                   end; discriminate).
  all: eexists; split; [reflexivity|]; now rewrite Huser, Hm.
Qed.

Lemma authenticated_identity_witness :
  exists req',
    fst (authenticate Sample.env (Sample.bearer [("authorization", "Bearer token-of-u1")])
           Sample.store) = Passed req' /\
    has_key "password" Sample.user1 = true /\
    has_key "password" (req_user req') = false /\
    has_key "refreshToken" (req_user req') = false /\
    lookup "userId" (req_user req') = Sample.oid "u1".
Proof.
  eexists. split; [reflexivity|]. split; [reflexivity|].
  destruct (authenticated_identity Sample.env
              (Sample.bearer [("authorization", "Bearer token-of-u1")]) _ Sample.store eq_refl)
    as (Hpw & Hrt & _ & _ & _).
  split; [exact Hpw|]. split; [exact Hrt|]. reflexivity.
Defined.

(** X26: the role check.  [authorize(...roles)] passes the request on,
    unchanged, exactly when the role of its identity is one of the roles
    listed; otherwise it answers 403 'Unauthorized access'.  With no role
    listed every request is refused. *)
Theorem authorize_checks_role (roles : list string) (req : Request) :
  (authorize roles req = Passed req /\
   exists role, In role roles /\ lookup "role" (req_user req) = VStr role) \/
  (authorize roles req = rejected 403 "Unauthorized access" /\
   forall role, In role roles -> lookup "role" (req_user req) <> VStr role).
Proof.
  unfold authorize.
  destruct (existsb (role_is (lookup "role" (req_user req))) roles) eqn:Hin.
  - left. split; [reflexivity|].
    apply existsb_exists in Hin as (role & Hrole & His). exists role. split; [exact Hrole|].
    unfold role_is in His. destruct (lookup "role" (req_user req)); try discriminate.
    apply String.eqb_eq in His. now subst.
  - right. split; [reflexivity|]. intros role Hrole Heq.
    assert (existsb (role_is (lookup "role" (req_user req))) roles = true) as Htrue.
    { apply existsb_exists. exists role. split; [exact Hrole|].
      rewrite Heq. apply String.eqb_refl. }
    congruence.
Qed.
